(** * Species card and species edit form: a shallow embedding

    Embeds the two components of [src/app/species]:
    - [species-card.tsx]      (component [SpeciesCard]), and
    - [edit-species-card.tsx] (component [EditSpeciesDialog]),
    together with the parts of the JavaScript run time, of zod and of
    react-hook-form that their schema and submit handlers go through. *)

From Stdlib Require Import List String Ascii Bool Arith NArith ZArith QArith Lia.
Import ListNotations.

Set Implicit Arguments.
Local Close Scope Q_scope.
Local Open Scope list_scope.

(** ** JavaScript values *)

Module Js.

(** A JavaScript string is a sequence of UTF-16 code units. *)
Definition jsstring := list N.

(** An ASCII literal of the source as a JavaScript string. *)
Definition lit (s : string) : jsstring :=
  map N_of_ascii (list_ascii_of_string s).

Definition eqb_string (a b : jsstring) : bool :=
  if list_eq_dec N.eq_dec a b then true else false.

Lemma eqb_string_true a b : eqb_string a b = true <-> a = b.
Proof.
  unfold eqb_string. destruct (list_eq_dec N.eq_dec a b); split; congruence.
Qed.

Lemma eqb_string_refl a : eqb_string a a = true.
Proof. now apply eqb_string_true. Qed.

(** WhiteSpace and LineTerminator code points of ECMAScript: the code units
    that [String.prototype.trim] removes. *)
Definition is_white_space (c : N) : bool :=
  (existsb (N.eqb c)
     [9; 10; 11; 12; 13; 32; 160; 5760; 8232; 8233; 8239; 8287; 12288; 65279]
   || ((8192 <=? c) && (c <=? 8202)))%N.

Fixpoint trimStart (s : jsstring) : jsstring :=
  match s with
  | c :: s' => if is_white_space c then trimStart s' else s
  | [] => []
  end.

Definition trimEnd (s : jsstring) : jsstring := rev (trimStart (rev s)).

(** [String.prototype.trim] *)
Definition trim (s : jsstring) : jsstring := trimEnd (trimStart s).

(** A JavaScript number: a finite double is a rational; the three values
    that are not are kept apart. *)
Inductive number :=
| NaN
| PosInfinity
| NegInfinity
| Finite (q : Q).

(** [Number.isInteger] *)
Definition isInteger (n : number) : bool :=
  match n with
  | Finite q => (Qnum q mod Zpos (Qden q) =? 0)%Z
  | _ => false
  end.

(** [a < b] on numbers; every comparison with [NaN] is false. *)
Definition lt (a b : number) : bool :=
  match a, b with
  | NaN, _ | _, NaN => false
  | _, NegInfinity => false
  | NegInfinity, _ => true
  | PosInfinity, _ => false
  | Finite _, PosInfinity => true
  | Finite x, Finite y => negb (Qle_bool y x)
  end.

(** [a <= b] on numbers. *)
Definition le (a b : number) : bool :=
  match a, b with
  | NaN, _ | _, NaN => false
  | NegInfinity, _ => true
  | _, PosInfinity => true
  | _, NegInfinity => false
  | PosInfinity, Finite _ => false
  | Finite x, Finite y => Qle_bool x y
  end.

(** The values a form field, a record column or a request column holds. *)
Inductive value :=
| VUndefined
| VNull
| VString (s : jsstring)
| VNumber (n : number).

(** ToBoolean *)
Definition truthy (v : value) : bool :=
  match v with
  | VUndefined | VNull => false
  | VString s => negb (eqb_string s [])
  | VNumber NaN => false
  | VNumber (Finite q) => negb (Qeq_bool q 0%Q)
  | VNumber _ => true
  end.

(** [a || b] *)
Definition or_else (a b : value) : value := if truthy a then a else b.

(** What was thrown, when a call does not return. *)
Inductive exn :=
| ZodError
| HookOutsideRender.

(** *** [new URL(s)]

    Whether [new URL(s)] returns is a parameter of the schema below.  The
    URL parser, given no base, fails unless its input, once the leading C0
    controls and spaces and every tab and newline are dropped, starts with
    a scheme: an ASCII letter, then letters, digits, [+], [-] or [.], then
    a colon.  [has_scheme] is that test; the examples use it for the
    parameter. *)

Definition is_alpha (c : N) : bool :=
  (((65 <=? c) && (c <=? 90)) || ((97 <=? c) && (c <=? 122)))%N.

Definition is_scheme_char (c : N) : bool :=
  (is_alpha c || ((48 <=? c) && (c <=? 57)) || (c =? 43) || (c =? 45)
   || (c =? 46))%N.

Fixpoint scheme_rest (s : jsstring) : bool :=
  match s with
  | [] => false
  | c :: s' =>
      if (c =? 58)%N then true
      else if is_scheme_char c then scheme_rest s' else false
  end.

Fixpoint strip_c0 (s : jsstring) : jsstring :=
  match s with
  | c :: s' => if (c <=? 32)%N then strip_c0 s' else s
  | [] => []
  end.

Definition is_tab_or_newline (c : N) : bool :=
  ((c =? 9) || (c =? 10) || (c =? 13))%N.

Definition has_scheme (s : jsstring) : bool :=
  match filter (fun c => negb (is_tab_or_newline c)) (strip_c0 s) with
  | c :: s' => is_alpha c && scheme_rest s'
  | [] => false
  end.

End Js.

(** ** zod: the schema constructors the species schema is built from *)

Module Zod.
Import Js.

Inductive issue_code :=
| invalid_type
| invalid_enum_value
| invalid_string
| too_small.

(** The outcome of parsing one value: the parsed (and transformed) data, or
    the issues found. *)
Inductive parsed (A : Type) :=
| Valid (data : A)
| Invalid (issues : list issue_code).

Arguments Valid {A} data.
Arguments Invalid {A} issues.

Definition schema (A : Type) := value -> parsed A.

Definition finish {A} (data : A) (issues : list issue_code) : parsed A :=
  match issues with
  | [] => Valid data
  | _ :: _ => Invalid issues
  end.

(** *** z.string() and its checks *)

Inductive string_check :=
| check_trim
| check_min (n : nat)
| check_url.

Section ZodString.

(** [URL_ok s]: [new URL(s)] returns, it does not throw. *)
Variable URL_ok : jsstring -> bool.

(** The loop over [checks] of [ZodString._parse]: [trim] replaces the data,
    the other checks add an issue and go on. *)
Fixpoint run_string_checks (checks : list string_check) (data : jsstring)
  : jsstring * list issue_code :=
  match checks with
  | [] => (data, [])
  | check_trim :: rest => run_string_checks rest (trim data)
  | check_min n :: rest =>
      let (out, issues) := run_string_checks rest data in
      (out, if (List.length data <? n)%nat then too_small :: issues else issues)
  | check_url :: rest =>
      let (out, issues) := run_string_checks rest data in
      (out, if URL_ok data then issues else invalid_string :: issues)
  end.

Definition z_string (checks : list string_check) : schema jsstring :=
  fun input =>
    match input with
    | VString s =>
        let (out, issues) := run_string_checks checks s in finish out issues
    | _ => Invalid [invalid_type]
    end.

End ZodString.

(** *** z.number() and its checks *)

Inductive number_check :=
| check_int
| check_min_value (bound : number) (inclusive : bool).

Definition number_check_fails (c : number_check) (data : number) : option issue_code :=
  match c with
  | check_int => if isInteger data then None else Some invalid_type
  | check_min_value bound inclusive =>
      let tooSmall := if inclusive then lt data bound else le data bound in
      if tooSmall then Some too_small else None
  end.

Fixpoint run_number_checks (checks : list number_check) (data : number)
  : list issue_code :=
  match checks with
  | [] => []
  | c :: rest =>
      match number_check_fails c data with
      | Some i => i :: run_number_checks rest data
      | None => run_number_checks rest data
      end
  end.

(** [NaN] has the parsed type [nan], not [number]. *)
Definition z_number (checks : list number_check) : schema number :=
  fun input =>
    match input with
    | VNumber NaN => Invalid [invalid_type]
    | VNumber n => finish n (run_number_checks checks n)
    | _ => Invalid [invalid_type]
    end.

(** [.int()], [.positive()], [.min(n)] *)
Definition int := check_int.
Definition positive := check_min_value (Finite 0%Q) false.
Definition min (n : Q) := check_min_value (Finite n) true.

(** *** z.enum([...]) *)

Definition z_enum (values : list jsstring) : schema jsstring :=
  fun input =>
    match input with
    | VString s =>
        if existsb (eqb_string s) values then Valid s
        else Invalid [invalid_enum_value]
    | _ => Invalid [invalid_type]
    end.

(** *** .nullable(), .optional(), .transform(f) *)

Definition nullable {A} (inner : schema A) : schema (option A) :=
  fun input =>
    match input with
    | VNull => Valid None
    | _ => match inner input with
           | Valid a => Valid (Some a)
           | Invalid i => Invalid i
           end
    end.

Definition optional {A} (inner : schema A) : schema (option A) :=
  fun input =>
    match input with
    | VUndefined => Valid None
    | _ => match inner input with
           | Valid a => Valid (Some a)
           | Invalid i => Invalid i
           end
    end.

Definition transform {A B} (inner : schema A) (f : A -> B) : schema B :=
  fun input =>
    match inner input with
    | Valid a => Valid (f a)
    | Invalid i => Invalid i
    end.

(** [schema.parse(x)]: the data, or a thrown [ZodError]. *)
Definition parse {A} (s : schema A) (input : value) : A + list issue_code :=
  match s input with
  | Valid a => inl a
  | Invalid i => inr i
  end.

End Zod.

(** ** The species schema

    [kingdoms], [speciesSchema], [FormData] and [defaultValues] are declared
    with the same text in both files: inside the component in
    [species-card.tsx] (lines 37-67), at the top of the module in
    [edit-species-card.tsx] (lines 24-54). *)

Module Schema.
Import Js Zod.

(** The keys of the schema object. *)
Inductive field :=
| k_common_name
| k_description
| k_kingdom
| k_scientific_name
| k_total_population
| k_image.

(** The object the form holds, the object [speciesSchema] produces and the
    object [onSubmit] receives: one value per key. *)
Record FormData := {
  common_name : value;
  description : value;
  kingdom : value;
  scientific_name : value;
  total_population : value;
  image : value
}.

Record issue := { path : field; code : issue_code }.

Inductive result :=
| Success (data : FormData)
| Failure (issues : list issue).

Definition issues_at {A} (k : field) (p : parsed A) : list issue :=
  match p with
  | Valid _ => []
  | Invalid cs => map (Build_issue k) cs
  end.

(** [z.enum(["Animalia", "Plantae", "Fungi", "Protista", "Archaea", "Bacteria"])] *)
Definition kingdoms_options : list jsstring :=
  [lit "Animalia"; lit "Plantae"; lit "Fungi"; lit "Protista"; lit "Archaea";
   lit "Bacteria"].

Definition kingdoms : schema jsstring := z_enum kingdoms_options.

(** [val?.trim()] for [val : string | null] *)
Definition chain_trim (val : option jsstring) : value :=
  match val with
  | Some s => VString (trim s)
  | None => VUndefined
  end.

(** [x === ""] *)
Definition is_empty_string (x : value) : bool :=
  match x with
  | VString s => eqb_string s []
  | _ => false
  end.

(** [(val) => (val?.trim() === "" ? null : val?.trim())] *)
Definition blank_to_null (val : option jsstring) : value :=
  if is_empty_string (chain_trim val) then VNull else chain_trim val.

(** The output of [.optional()] as a value. *)
Definition of_optional (n : option number) : value :=
  match n with
  | Some x => VNumber x
  | None => VUndefined
  end.

Section WithURL.

Variable URL_ok : jsstring -> bool.

(** [z.string().nullable().transform(...)] of [common_name] and
    [description] *)
Definition nullable_text : schema value :=
  transform (nullable (z_string URL_ok [])) blank_to_null.

(** [z.string().trim().min(1).transform((val) => val?.trim())] *)
Definition scientific_name_schema : schema value :=
  transform (z_string URL_ok [check_trim; check_min 1])
            (fun val => chain_trim (Some val)).

(** [z.number().int().positive().min(1).optional()] *)
Definition total_population_schema : schema value :=
  transform (optional (z_number [int; positive; min 1%Q])) of_optional.

(** [z.string().url().nullable().transform((val) => val?.trim())] *)
Definition image_schema : schema value :=
  transform (nullable (z_string URL_ok [check_url])) chain_trim.

Definition kingdom_schema : schema value := transform kingdoms VString.

(** [z.object({...})] applied to the form's values: every key is parsed,
    the issues of all keys are reported together. *)
Definition speciesSchema (input : FormData) : result :=
  let cn := nullable_text (common_name input) in
  let de := nullable_text (description input) in
  let ki := kingdom_schema (kingdom input) in
  let sn := scientific_name_schema (scientific_name input) in
  let tp := total_population_schema (total_population input) in
  let im := image_schema (image input) in
  match cn, de, ki, sn, tp, im with
  | Valid a, Valid b, Valid c, Valid d, Valid e, Valid f =>
      Success {| common_name := a; description := b; kingdom := c;
                 scientific_name := d; total_population := e; image := f |}
  | _, _, _, _, _, _ =>
      Failure (issues_at k_common_name cn ++ issues_at k_description de
               ++ issues_at k_kingdom ki ++ issues_at k_scientific_name sn
               ++ issues_at k_total_population tp ++ issues_at k_image im)
  end.

End WithURL.

(** [const defaultValues: Partial<FormData> = { kingdom: "Animalia" }] *)
Definition defaultValues : FormData :=
  {| common_name := VUndefined; description := VUndefined;
     kingdom := VString (lit "Animalia"); scientific_name := VUndefined;
     total_population := VUndefined; image := VUndefined |}.

(** A form none of whose fields has been given a value. *)
Definition no_values : FormData :=
  {| common_name := VUndefined; description := VUndefined;
     kingdom := VUndefined; scientific_name := VUndefined;
     total_population := VUndefined; image := VUndefined |}.

End Schema.

(** ** The collaborators and the component state *)

Module Runtime.
Import Js Zod Schema.

(** Modelled from the spec: the row type [Database["public"]["Tables"]
    ["species"]["Row"]] of [@/lib/schema], which is not among the sources;
    its columns are those of the record of section 3 of the specification. *)
Record Species := {
  row_id : value;
  row_author : value;
  row_scientific_name : value;
  row_common_name : value;
  row_kingdom : value;
  row_total_population : value;
  row_image : value;
  row_description : value
}.

(** An object literal: its properties, in the order they are written. *)
Definition object := list (string * value).

(** [o.k]: the property [k] of [o], [undefined] when [o] has none. *)
Fixpoint get (k : string) (o : object) : value :=
  match o with
  | [] => Js.VUndefined
  | (k', v) :: rest => if String.eqb k k' then v else get k rest
  end.

(** The property names of an object. *)
Definition keys (o : object) : list string := map fst o.

(** [supabase.from(table).update(rows).eq(column, equals)] *)
Record UpdateRequest := {
  table : string;
  rows : list object;
  column : string;
  equals : value
}.

(** [toast({ title, description, variant })] *)
Record Toast := {
  title : jsstring;
  toast_description : jsstring;
  variant : jsstring
}.

(** What a component instance holds ([useState], [useForm]) and what it
    has asked of its collaborators so far, latest first. *)
Record State := {
  open : bool;
  edit : bool;
  values : FormData;
  errors : list issue;
  resets : list FormData;
  requests : list UpdateRequest;
  toasts : list Toast;
  refreshes : nat
}.

Definition initial (defaults : FormData) : State :=
  {| open := false; edit := false; values := defaults; errors := [];
     resets := []; requests := []; toasts := []; refreshes := 0 |}.

(** A handler either returns or throws, and leaves a state behind. *)
Inductive outcome (A : Type) :=
| Returned (a : A)
| Thrown (e : exn).

Arguments Returned {A} a.
Arguments Thrown {A} e.

Definition M (A : Type) := State -> outcome A * State.

Definition ret {A} (a : A) : M A := fun st => (Returned a, st).

Definition bind {A B} (m : M A) (k : A -> M B) : M B :=
  fun st =>
    match m st with
    | (Returned a, st') => k a st'
    | (Thrown e, st') => (Thrown e, st')
    end.

Definition throw {A} (e : exn) : M A := fun st => (Thrown e, st).

Declare Scope handler_scope.
Delimit Scope handler_scope with handler.
Notation "x <- m ;; k" := (bind m (fun x => k))
  (at level 61, m at next level, right associativity) : handler_scope.
Notation "m ;; k" := (bind m (fun _ => k))
  (at level 61, right associativity) : handler_scope.
Local Open Scope handler_scope.

Definition exec {A} (m : M A) (st : State) : State := snd (m st).

(** [setOpen(b)], [setEdit(b)] *)
Definition setOpen (b : bool) : M unit :=
  fun st =>
    (Returned tt,
     {| open := b; edit := edit st; values := values st; errors := errors st;
        resets := resets st; requests := requests st; toasts := toasts st;
        refreshes := refreshes st |}).

Definition setEdit (b : bool) : M unit :=
  fun st =>
    (Returned tt,
     {| open := open st; edit := b; values := values st; errors := errors st;
        resets := resets st; requests := requests st; toasts := toasts st;
        refreshes := refreshes st |}).

(** [form.reset(v)]: the fields show [v], the errors are cleared. *)
Definition form_reset (v : FormData) : M unit :=
  fun st =>
    (Returned tt,
     {| open := open st; edit := edit st; values := v; errors := [];
        resets := v :: resets st; requests := requests st;
        toasts := toasts st; refreshes := refreshes st |}).

Definition set_values (v : FormData) : M unit :=
  fun st =>
    (Returned tt,
     {| open := open st; edit := edit st; values := v; errors := errors st;
        resets := resets st; requests := requests st; toasts := toasts st;
        refreshes := refreshes st |}).

Definition set_errors (i : list issue) : M unit :=
  fun st =>
    (Returned tt,
     {| open := open st; edit := edit st; values := values st; errors := i;
        resets := resets st; requests := requests st; toasts := toasts st;
        refreshes := refreshes st |}).

(** [toast(t)] *)
Definition toast (t : Toast) : M unit :=
  fun st =>
    (Returned tt,
     {| open := open st; edit := edit st; values := values st;
        errors := errors st; resets := resets st; requests := requests st;
        toasts := t :: toasts st; refreshes := refreshes st |}).

(** [router.refresh()] *)
Definition router_refresh : M unit :=
  fun st =>
    (Returned tt,
     {| open := open st; edit := edit st; values := values st;
        errors := errors st; resets := resets st; requests := requests st;
        toasts := toasts st; refreshes := S (refreshes st) |}).

Section Persistence.

(** The persistence collaborator: the [error.message] an update request
    is answered with, or [None] when [error] is null. *)
Variable supabase : UpdateRequest -> option jsstring.

(** [const { error } = await query]: the request goes out, its answer
    comes back. *)
Definition send (req : UpdateRequest) : M (option jsstring) :=
  fun st =>
    (Returned (supabase req),
     {| open := open st; edit := edit st; values := values st;
        errors := errors st; resets := resets st;
        requests := req :: requests st; toasts := toasts st;
        refreshes := refreshes st |}).

End Persistence.

(** *** react-hook-form *)

Definition field_index (k : field) : nat :=
  match k with
  | k_common_name => 0
  | k_description => 1
  | k_kingdom => 2
  | k_scientific_name => 3
  | k_total_population => 4
  | k_image => 5
  end.

Definition same_field (a b : field) : bool :=
  Nat.eqb (field_index a) (field_index b).

(** The errors object the resolver builds from the issues of a zod error:
    an issue is entered only if its field has no entry yet, so each field
    keeps the first issue reported at it. *)
Fixpoint first_per_field (issues : list issue) : list issue :=
  match issues with
  | [] => []
  | i :: rest =>
      i :: filter (fun j => negb (same_field (path j) (path i)))
             (first_per_field rest)
  end.

(** [zodResolver(schema)]: the form's values go through the schema; its
    data is passed on, its issues become the errors, one per field. *)
Definition zodResolver (s : FormData -> result) : FormData -> result :=
  fun values =>
    match s values with
    | Success data => Success data
    | Failure issues => Failure (first_per_field issues)
    end.

(** [form.handleSubmit(onValid)(e)].  With a resolver the values are
    resolved first: [onValid] gets the resolved data, or is not called and
    the errors are kept.  Without one only the rules registered with the
    fields are checked; neither component registers any, so [onValid] gets
    the field values as they are. *)
Definition handleSubmit (resolver : option (FormData -> result))
    (onValid : FormData -> M unit) : M unit :=
  fun st =>
    match resolver with
    | Some resolve =>
        match resolve (values st) with
        | Success data => (set_errors [] ;; onValid data) st
        | Failure issues => set_errors issues st
        end
    | None => (set_errors [] ;; onValid (values st)) st
    end.

(** The form's values with the kingdom field set to [k]. *)
Definition with_kingdom (k : value) (v : FormData) : FormData :=
  {| common_name := common_name v; description := description v;
     kingdom := k; scientific_name := scientific_name v;
     total_population := total_population v; image := image v |}.

(** [(value) => field.onChange(kingdoms.parse(value))] of the kingdom
    [Select], the same in both components. *)
Definition onValueChange (v : value) : M unit :=
  match parse kingdoms v with
  | inl k => fun st => set_values (with_kingdom (VString k) (values st)) st
  | inr _ => throw ZodError
  end.

(** One [SelectItem] of the kingdom [Select]. *)
Record SelectItem := { key : nat; item_value : jsstring }.

(** [kingdoms.options.map((kingdom, index) =>
      <SelectItem key={index} value={kingdom}>)] *)
Definition select_items : list SelectItem :=
  map (fun p => {| key := fst p; item_value := snd p |})
      (combine (seq 0 (List.length kingdoms_options)) kingdoms_options).

End Runtime.

(** ** species-card.tsx: the component [SpeciesCard] *)

Module SpeciesCard.
Import Js Zod Schema Runtime.
Local Open Scope handler_scope.
Local Open Scope string_scope.

Section Component.

(** [SpeciesCard(species: Species, userId: string)] *)
Variable species : Species.
Variable userId : value.
Variable supabase : UpdateRequest -> option jsstring.

(** [useForm<FormData>({ mode: "onChange" })]: no resolver and no default
    values are handed to the form. *)
Definition resolver : option (FormData -> result) := None.

(** [useState<boolean>(false)] twice, and the form. *)
Definition init : State := initial no_values.

(** [handleEdit]: beside logging and building a client it sets [edit]. *)
Definition handleEdit : M unit := setEdit true.

(** The object of lines 75-83. *)
Definition row (input : FormData) : object :=
  [("author", userId);
   ("common_name", common_name input);
   ("description", description input);
   ("kingdom", kingdom input);
   ("scientific_name", scientific_name input);
   ("total_population", total_population input);
   ("image", image input)].

(** [supabase.from("species").update([{...}]).eq("userId", userId)] *)
Definition query (input : FormData) : UpdateRequest :=
  {| table := "species"; rows := [row input];
     column := "userId"; equals := userId |}.

(** Lines 69-99. *)
Definition onSubmit (input : FormData) : M unit :=
  error <- send supabase (query input) ;;
  match error with
  | Some message =>
      toast {| title := lit "Something went wrong.";
               toast_description := message;
               variant := lit "destructive" |}
  | None =>
      form_reset input ;;
      setOpen false ;;
      router_refresh
  end.

(** [<form onSubmit={(e) => void form.handleSubmit(onSubmit)(e)}>] *)
Definition submit : M unit := handleSubmit resolver onSubmit.

(** The two dialogs as rendered: [<Dialog open={open} ...>] (line 115)
    and [<Dialog open={edit} ...>] (line 131). *)
Record View := { details_dialog : bool; edit_dialog : bool }.

Definition render (st : State) : View :=
  {| details_dialog := open st; edit_dialog := edit st |}.

(** What the user can do to the card: Learn More ([setOpen(true)]), the
    details dialog's [onOpenChange={setOpen}], Edit ([setEdit(true)]), the
    edit dialog's [onOpenChange={setEdit}], Cancel ([setEdit(false)]), a
    choice in the kingdom select, and the submit button. *)
Inductive event :=
| ClickLearnMore
| DetailsOpenChange (b : bool)
| ClickEdit
| EditOpenChange (b : bool)
| ClickCancel
| SelectKingdom (v : value)
| SubmitForm.

Definition handle (e : event) : M unit :=
  match e with
  | ClickLearnMore => setOpen true
  | DetailsOpenChange b => setOpen b
  | ClickEdit => setEdit true
  | EditOpenChange b => setEdit b
  | ClickCancel => setEdit false
  | SelectKingdom v => onValueChange v
  | SubmitForm => submit
  end.

(** The state after a sequence of events; an event whose handler throws
    leaves what the handler had done. *)
Definition run (es : list event) (st : State) : State :=
  fold_left (fun s e => exec (handle e) s) es st.

End Component.

End SpeciesCard.

(** ** edit-species-card.tsx: the component [EditSpeciesDialog] *)

Module EditSpeciesDialog.
Import Js Zod Schema Runtime.
Local Open Scope handler_scope.
Local Open Scope string_scope.

Section Component.

Variable URL_ok : jsstring -> bool.

(** [EditSpeciesDialog({ species, profile }: PropType)] *)
Variable species : Species.
Variable profile : jsstring.
Variable supabase : UpdateRequest -> option jsstring.

(** [useEffect] is called at line 112 and is not bound in the file: what
    the call does with its callback is left open. *)
Variable useEffect : M unit -> M unit.

(** The object of lines 70-77, written again at lines 113-120. *)
Definition record_values : FormData :=
  {| common_name := or_else (row_common_name species) (VString []);
     description := or_else (row_description species) (VString []);
     kingdom := row_kingdom species;
     scientific_name := or_else (row_scientific_name species) (VString []);
     total_population := or_else (row_total_population species) (VString []);
     image := or_else (row_image species) (VString []) |}.

(** [useForm<FormData>({ resolver: zodResolver(speciesSchema),
    defaultValues: {...}, mode: "onChange" })] *)
Definition resolver : option (FormData -> result) :=
  Some (zodResolver (speciesSchema URL_ok)).

Definition init : State := initial record_values.

Definition handleEdit : M unit := setEdit true.

(** The object of lines 90-97. *)
Definition row (input : FormData) : object :=
  [("common_name", or_else (common_name input) VNull);
   ("description", or_else (description input) VNull);
   ("kingdom", kingdom input);
   ("scientific_name", or_else (scientific_name input) VNull);
   ("total_population", or_else (total_population input) VNull);
   ("image", or_else (image input) VNull)].

(** [supabase.from("species").update([{...}]).eq("species", species.id)] *)
Definition query (input : FormData) : UpdateRequest :=
  {| table := "species"; rows := [row input];
     column := "species"; equals := row_id species |}.

(** Lines 82-128.  [species.userId] is read into a constant that is not
    used; the dependency array of the [useEffect] call is left out. *)
Definition onSubmit (input : FormData) : M unit :=
  error <- send supabase (query input) ;;
  match error with
  | Some message =>
      toast {| title := lit "Something went wrong.";
               toast_description := message;
               variant := lit "destructive" |}
  | None =>
      useEffect (form_reset record_values) ;;
      setOpen false ;;
      router_refresh
  end.

Definition submit : M unit := handleSubmit resolver onSubmit.

(** The one dialog as rendered: [<Dialog open={true}
    onOpenChange={setEdit}>] (line 132). *)
Record View := { edit_dialog : bool }.

Definition render (st : State) : View := {| edit_dialog := true |}.

(** What the user can do to the dialog: its [onOpenChange={setEdit}],
    Cancel ([setEdit(false)]), a choice in the kingdom select, and the
    submit button. *)
Inductive event :=
| EditOpenChange (b : bool)
| ClickCancel
| SelectKingdom (v : value)
| SubmitForm.

Definition handle (e : event) : M unit :=
  match e with
  | EditOpenChange b => setEdit b
  | ClickCancel => setEdit false
  | SelectKingdom v => onValueChange v
  | SubmitForm => submit
  end.

Definition run (es : list event) (st : State) : State :=
  fold_left (fun s e => exec (handle e) s) es st.

End Component.

(** React's own [useEffect] when called outside rendering, as here from an
    event handler after an [await]: there is no dispatcher, the call
    throws and the callback is not run. *)
Definition useEffect_outside_render : M unit -> M unit :=
  fun _ => throw HookOutsideRender.

End EditSpeciesDialog.

(** ** The scenarios of section 8 of the specification, as inputs *)

Module Scenario.
Import Js Zod Schema Runtime.
Local Open Scope string_scope.

Definition wolf_input : FormData :=
  {| common_name := VString (lit "");
     description := VString (lit "");
     kingdom := VString (lit "Animalia");
     scientific_name := VString (lit "  Canis lupus  ");
     total_population := VNumber (Finite (300000 # 1));
     image := VString (lit "https://example.com/wolf.jpg") |}.

(** What the schema makes of [wolf_input]. *)
Definition wolf_data : FormData :=
  {| common_name := VNull;
     description := VNull;
     kingdom := VString (lit "Animalia");
     scientific_name := VString (lit "Canis lupus");
     total_population := VNumber (Finite (300000 # 1));
     image := VString (lit "https://example.com/wolf.jpg") |}.

Definition wolf_record : Species :=
  {| row_id := VNumber (Finite (7 # 1));
     row_author := VString (lit "user-1");
     row_scientific_name := VString (lit "Canis lupus");
     row_common_name := VString (lit "Wolf");
     row_kingdom := VString (lit "Animalia");
     row_total_population := VNumber (Finite (250000 # 1));
     row_image := VNull;
     row_description := VNull |}.

Definition owner : value := VString (lit "user-1").

Definition accepts : UpdateRequest -> option jsstring := fun _ => None.

Definition network_unreachable : UpdateRequest -> option jsstring :=
  fun _ => Some (lit "network unreachable").

(** The edit dialog is showing and the fields hold [v]. *)
Definition editing (v : FormData) : State :=
  {| open := false; edit := true; values := v; errors := [];
     resets := []; requests := []; toasts := []; refreshes := 0 |}.

Definition with_scientific_name (x : value) (v : FormData) : FormData :=
  {| common_name := common_name v; description := description v;
     kingdom := kingdom v; scientific_name := x;
     total_population := total_population v; image := image v |}.

Definition with_total_population (x : value) (v : FormData) : FormData :=
  {| common_name := common_name v; description := description v;
     kingdom := kingdom v; scientific_name := scientific_name v;
     total_population := x; image := image v |}.

Definition with_image (x : value) (v : FormData) : FormData :=
  {| common_name := common_name v; description := description v;
     kingdom := kingdom v; scientific_name := scientific_name v;
     total_population := total_population v; image := x |}.

End Scenario.

(** ** species-card.tsx: the summary the card shows (lines 103-110) *)

Module CardView.
Import Js Runtime.

(** [{species.image && (...<Image .../>...)}] (line 103): the image block
    is rendered when the image column is truthy. *)
Definition shows_image (species : Species) : bool :=
  truthy (row_image species).

(** [species.description ? species.description.slice(0, 150).trim() + "..."
    : ""] (line 110).  [slice(0, 150)] keeps the first 150 code units; a
    truthy description that is not a string has no [slice], and the
    expression throws ([None]). *)
Definition blurb (species : Species) : option jsstring :=
  let d := row_description species in
  if truthy d then
    match d with
    | VString s => Some (trim (firstn 150 s) ++ lit "...")
    | _ => None
    end
  else Some [].

End CardView.

(** ** species-card.tsx: a session with the card

    The events of [SpeciesCard.event] together with typing into the form:
    the text inputs are rendered as [<Input {...field} />], so a change
    stores the text typed (lines 143, 159, 222, 238); the population input
    stores [+event.target.value], a number (line 208). *)

Module CardSession.
Import Js Zod Schema Runtime.

Inductive text_input :=
| scientific_name_input
| common_name_input
| image_input
| description_input.

Definition with_text (k : text_input) (x : value) (v : FormData) : FormData :=
  match k with
  | scientific_name_input =>
      {| common_name := common_name v; description := description v;
         kingdom := kingdom v; scientific_name := x;
         total_population := total_population v; image := image v |}
  | common_name_input =>
      {| common_name := x; description := description v;
         kingdom := kingdom v; scientific_name := scientific_name v;
         total_population := total_population v; image := image v |}
  | image_input =>
      {| common_name := common_name v; description := description v;
         kingdom := kingdom v; scientific_name := scientific_name v;
         total_population := total_population v; image := x |}
  | description_input =>
      {| common_name := common_name v; description := x;
         kingdom := kingdom v; scientific_name := scientific_name v;
         total_population := total_population v; image := image v |}
  end.

Definition with_population (x : value) (v : FormData) : FormData :=
  {| common_name := common_name v; description := description v;
     kingdom := kingdom v; scientific_name := scientific_name v;
     total_population := x; image := image v |}.

Inductive event :=
| Ui (e : SpeciesCard.event)
| TypeText (k : text_input) (s : jsstring)
| TypePopulation (n : number).

Section Session.

Variable userId : value.
Variable supabase : UpdateRequest -> option jsstring.

Definition handle (e : event) : M unit :=
  match e with
  | Ui e' => SpeciesCard.handle userId supabase e'
  | TypeText k s =>
      fun st => set_values (with_text k (VString s) (values st)) st
  | TypePopulation n =>
      fun st => set_values (with_population (VNumber n) (values st)) st
  end.

Definition run (es : list event) (st : State) : State :=
  fold_left (fun s e => exec (handle e) s) es st.

End Session.

(** The number of submits among the events. *)
Definition is_submit (e : event) : bool :=
  match e with
  | Ui SpeciesCard.SubmitForm => true
  | _ => false
  end.

(** The events that close the edit dialog: Cancel, and the dialog's own
    [onOpenChange] with [false]. *)
Definition closes_edit (e : event) : bool :=
  match e with
  | Ui SpeciesCard.ClickCancel => true
  | Ui (SpeciesCard.EditOpenChange false) => true
  | _ => false
  end.

Definition is_select_kingdom (e : event) : bool :=
  match e with
  | Ui (SpeciesCard.SelectKingdom _) => true
  | _ => false
  end.

End CardSession.

(** * Properties *)

(** ** Trimming *)

Module TrimFacts.
Import Js.

Definition blank (s : jsstring) : bool := forallb is_white_space s.

Lemma trimStart_nil_iff s : trimStart s = [] <-> blank s = true.
Proof.
  induction s as [|c s IH]; simpl.
  - tauto.
  - destruct (is_white_space c); simpl.
    + exact IH.
    + split; discriminate.
Qed.

Lemma trimStart_blank s : blank (trimStart s) = true -> trimStart s = [].
Proof.
  induction s as [|c s IH]; simpl; trivial.
  destruct (is_white_space c) eqn:E; trivial.
  simpl. rewrite E. discriminate.
Qed.

Lemma blank_rev s : blank (rev s) = blank s.
Proof.
  unfold blank. induction s as [|c s IH]; simpl; trivial.
  rewrite forallb_app, IH. simpl. rewrite andb_true_r. apply andb_comm.
Qed.

Lemma rev_nil_iff {A} (l : list A) : rev l = [] <-> l = [].
Proof.
  split; intros H.
  - rewrite <- (rev_involutive l), H. reflexivity.
  - subst. reflexivity.
Qed.

(** A string trims to the empty string exactly when it is made of white
    space only. *)
Lemma trim_nil_iff s : trim s = [] <-> blank s = true.
Proof.
  unfold trim, trimEnd. split; intros H.
  - apply rev_nil_iff, trimStart_nil_iff in H. rewrite blank_rev in H.
    apply trimStart_nil_iff, trimStart_blank, H.
  - apply trimStart_nil_iff in H. rewrite H. reflexivity.
Qed.

Lemma alpha_not_white_space c : is_alpha c = true -> is_white_space c = false.
Proof.
  unfold is_alpha, is_white_space. simpl. intros H.
  repeat match goal with
         | |- context [N.eqb c ?k] =>
             destruct (N.eqb_spec c k); [subst c; discriminate H|]
         end.
  simpl.
  destruct (N.leb_spec 8192 c); simpl; trivial.
  apply orb_true_iff in H.
  destruct H as [H|H]; apply andb_true_iff in H; destruct H as [_ H];
    apply N.leb_le in H; lia.
Qed.

Lemma strip_c0_In c s : In c (strip_c0 s) -> In c s.
Proof.
  induction s as [|a s IH]; simpl; trivial.
  destruct (a <=? 32)%N; simpl; auto.
Qed.

Lemma not_blank_with c s :
  In c s -> is_white_space c = false -> blank s = false.
Proof.
  intros I W. destruct (blank s) eqn:B; trivial.
  unfold blank in B. rewrite forallb_forall in B.
  rewrite (B c I) in W. discriminate.
Qed.

(** No string of white space starts with a scheme. *)
Lemma has_scheme_not_blank s : has_scheme s = true -> trim s <> [].
Proof.
  unfold has_scheme. intros H T.
  apply trim_nil_iff in T.
  destruct (filter _ (strip_c0 s)) as [|c s'] eqn:E; [discriminate|].
  apply andb_true_iff in H. destruct H as [Hc _].
  assert (I : In c s).
  { apply strip_c0_In.
    eapply proj1. eapply filter_In. rewrite E. left. reflexivity. }
  rewrite (not_blank_with c s I (alpha_not_white_space c Hc)) in T.
  discriminate.
Qed.

End TrimFacts.

(** ** The schema, key by key *)

Module SchemaFacts.
Import Js Zod Schema TrimFacts.

Section WithURL.

Variable URL_ok : jsstring -> bool.

(** The issues of the six keys, in the order of the schema. *)
Definition all_issues (input : FormData) : list issue :=
  issues_at k_common_name (nullable_text URL_ok (common_name input))
  ++ issues_at k_description (nullable_text URL_ok (description input))
  ++ issues_at k_kingdom (kingdom_schema (kingdom input))
  ++ issues_at k_scientific_name
       (scientific_name_schema URL_ok (scientific_name input))
  ++ issues_at k_total_population
       (total_population_schema (total_population input))
  ++ issues_at k_image (image_schema URL_ok (image input)).

(** Case analysis on the outcome of each of the six keys. *)
Ltac destruct_keys input :=
  destruct (nullable_text URL_ok (common_name input));
  destruct (nullable_text URL_ok (description input));
  destruct (kingdom_schema (kingdom input));
  destruct (scientific_name_schema URL_ok (scientific_name input));
  destruct (total_population_schema (total_population input));
  destruct (image_schema URL_ok (image input)).

(** The object is accepted exactly when each key is, and then holds the
    data of each key. *)
Lemma speciesSchema_Success input data :
  speciesSchema URL_ok input = Success data <->
  nullable_text URL_ok (common_name input) = Valid (common_name data)
  /\ nullable_text URL_ok (description input) = Valid (description data)
  /\ kingdom_schema (kingdom input) = Valid (kingdom data)
  /\ scientific_name_schema URL_ok (scientific_name input)
     = Valid (scientific_name data)
  /\ total_population_schema (total_population input)
     = Valid (total_population data)
  /\ image_schema URL_ok (image input) = Valid (image data).
Proof.
  unfold speciesSchema. split.
  - destruct_keys input; intros H; try discriminate H.
    injection H as <-. simpl. repeat split.
  - intros (-> & -> & -> & -> & -> & ->). destruct data; reflexivity.
Qed.

(** Otherwise the issues of all keys are reported. *)
Lemma speciesSchema_Failure input :
  (forall data, speciesSchema URL_ok input <> Success data) ->
  speciesSchema URL_ok input = Failure (all_issues input).
Proof.
  unfold all_issues. intros H. revert H. unfold speciesSchema.
  destruct_keys input; intros H; try reflexivity.
  exfalso. eapply H. reflexivity.
Qed.

Lemma scientific_name_rejected input cs :
  scientific_name_schema URL_ok (scientific_name input) = Invalid cs ->
  speciesSchema URL_ok input = Failure (all_issues input).
Proof.
  intros H. apply speciesSchema_Failure. intros data E.
  apply speciesSchema_Success in E. destruct E as (_ & _ & _ & E & _).
  congruence.
Qed.

Lemma total_population_rejected input cs :
  total_population_schema (total_population input) = Invalid cs ->
  speciesSchema URL_ok input = Failure (all_issues input).
Proof.
  intros H. apply speciesSchema_Failure. intros data E.
  apply speciesSchema_Success in E. destruct E as (_ & _ & _ & _ & E & _).
  congruence.
Qed.

Lemma image_rejected input cs :
  image_schema URL_ok (image input) = Invalid cs ->
  speciesSchema URL_ok input = Failure (all_issues input).
Proof.
  intros H. apply speciesSchema_Failure. intros data E.
  apply speciesSchema_Success in E. destruct E as (_ & _ & _ & _ & _ & E).
  congruence.
Qed.


(** *** [common_name] and [description] *)

Lemma nullable_text_string s :
  nullable_text URL_ok (VString s)
  = Valid (if eqb_string (trim s) [] then VNull else VString (trim s)).
Proof. reflexivity. Qed.

Lemma nullable_text_blank s :
  trim s = [] -> nullable_text URL_ok (VString s) = Valid VNull.
Proof. intros H. rewrite nullable_text_string, H. reflexivity. Qed.

(** *** [scientific_name] *)

Lemma scientific_name_string s :
  scientific_name_schema URL_ok (VString s)
  = match trim s with
    | [] => Invalid [too_small]
    | _ :: _ => Valid (VString (trim (trim s)))
    end.
Proof.
  unfold scientific_name_schema, transform, z_string. simpl.
  destruct (trim s); reflexivity.
Qed.

Lemma scientific_name_blank s :
  trim s = [] ->
  scientific_name_schema URL_ok (VString s) = Invalid [too_small].
Proof. intros H. rewrite scientific_name_string, H. reflexivity. Qed.

(** *** [image] *)

Lemma image_string s :
  image_schema URL_ok (VString s)
  = if URL_ok s then Valid (VString (trim s)) else Invalid [invalid_string].
Proof.
  unfold image_schema, transform, nullable, z_string. simpl.
  destruct (URL_ok s); reflexivity.
Qed.

Lemma image_not_URL input s :
  image input = VString s -> URL_ok s = false ->
  speciesSchema URL_ok input = Failure (all_issues input)
  /\ In {| path := k_image; code := invalid_string |} (all_issues input).
Proof.
  intros E U.
  assert (B : image_schema URL_ok (image input) = Invalid [invalid_string])
    by (rewrite E, image_string, U; reflexivity).
  split.
  - eapply image_rejected, B.
  - unfold all_issues. rewrite B, !in_app_iff. do 5 right. simpl. auto.
Qed.

End WithURL.

(** *** [total_population] *)


Lemma total_population_not_integer n :
  isInteger n = false ->
  exists cs, total_population_schema (VNumber n) = Invalid (invalid_type :: cs).
Proof.
  intros H. destruct n as [| | |q]; try (eexists; reflexivity).
  unfold total_population_schema, transform, optional, z_number.
  simpl in *. rewrite H.
  destruct (Qle_bool q 0), (Qle_bool 1 q); simpl; eexists; reflexivity.
Qed.


(** An integer from one up is accepted. *)
Lemma total_population_accepts q :
  isInteger (Finite q) = true -> le (Finite 1%Q) (Finite q) = true ->
  total_population_schema (VNumber (Finite q)) = Valid (VNumber (Finite q)).
Proof.
  intros I L. unfold total_population_schema, transform, optional, z_number.
  simpl in *. rewrite I, L.
  destruct (Qle_bool q 0) eqn:E; [|reflexivity].
  apply Qle_bool_iff in E, L.
  assert (C : (1 <= 0)%Q) by (eapply Qle_trans; eassumption).
  now compute in C.
Qed.

End SchemaFacts.

(** ** The submit handlers, step by step *)

Module HandlerFacts.
Import Js Zod Schema Runtime.

(** The notification of a failed update. *)
Definition failure_toast (message : jsstring) : Toast :=
  {| title := lit "Something went wrong.";
     toast_description := message;
     variant := lit "destructive" |}.

(** [st] with one request more. *)
Definition requested (req : UpdateRequest) (st : State) : State :=
  {| open := open st; edit := edit st; values := values st;
     errors := errors st; resets := resets st;
     requests := req :: requests st; toasts := toasts st;
     refreshes := refreshes st |}.

(** Between [st] and [st'] a notification with [message] was shown and
    nothing else of the component changed: flags, field values, errors,
    resets and refresh signals are as before. *)
Definition only_notified (message : jsstring) (st st' : State) : Prop :=
  toasts st' = failure_toast message :: toasts st
  /\ open st' = open st
  /\ edit st' = edit st
  /\ values st' = values st
  /\ errors st' = errors st
  /\ resets st' = resets st
  /\ refreshes st' = refreshes st.

Lemma same_field_true a b : same_field a b = true <-> a = b.
Proof.
  unfold same_field. rewrite Nat.eqb_eq.
  split; [|intros ->; reflexivity]. destruct a, b; simpl; congruence.
Qed.

(** An issue with no earlier issue at its field is among the errors. *)
Lemma first_per_field_keeps pre i post :
  Forall (fun j => path j <> path i) pre ->
  In i (first_per_field (pre ++ i :: post)).
Proof.
  induction pre as [|a pre IH]; intros H; simpl.
  - left. reflexivity.
  - inversion H as [|? ? Ha Hpre]; subst. right.
    apply filter_In. split; [apply IH, Hpre|].
    apply negb_true_iff. destruct (same_field (path i) (path a)) eqn:E; trivial.
    apply same_field_true in E. congruence.
Qed.

(** The errors are issues of the zod error. *)
Lemma first_per_field_incl issues i :
  In i (first_per_field issues) -> In i issues.
Proof.
  revert i. induction issues as [|a rest IH]; intros i; simpl; trivial.
  intros [E|H]; [now left|]. right. apply filter_In in H. apply IH, H.
Qed.

(** A single issue is kept as it is. *)
Lemma first_per_field_single i : first_per_field [i] = [i].
Proof. reflexivity. Qed.

Lemma issues_at_path {A} k (p : parsed A) :
  Forall (fun j => path j = k) (issues_at k p).
Proof.
  destruct p as [a|cs]; simpl; [constructor|].
  induction cs; simpl; constructor; trivial.
Qed.

Section Card.

Variable userId : value.
Variable supabase : UpdateRequest -> option jsstring.

Lemma card_onSubmit_failure input message st :
  supabase (SpeciesCard.query userId input) = Some message ->
  SpeciesCard.onSubmit userId supabase input st
  = toast (failure_toast message)
      (requested (SpeciesCard.query userId input) st).
Proof.
  intros H. unfold SpeciesCard.onSubmit, bind, send. rewrite H. reflexivity.
Qed.

Lemma card_onSubmit_success input st :
  supabase (SpeciesCard.query userId input) = None ->
  SpeciesCard.onSubmit userId supabase input st
  = (Returned tt,
     {| open := false; edit := edit st; values := input; errors := [];
        resets := input :: resets st;
        requests := SpeciesCard.query userId input :: requests st;
        toasts := toasts st; refreshes := S (refreshes st) |}).
Proof.
  intros H. unfold SpeciesCard.onSubmit, bind, send. rewrite H. reflexivity.
Qed.

(** Whatever the answer, [onSubmit] sends exactly its query. *)
Lemma card_onSubmit_requests input st :
  requests (exec (SpeciesCard.onSubmit userId supabase input) st)
  = SpeciesCard.query userId input :: requests st.
Proof.
  unfold exec, SpeciesCard.onSubmit, bind, send.
  destruct (supabase (SpeciesCard.query userId input)); reflexivity.
Qed.

(** The card's form has no resolver: a submit hands the field values to
    [onSubmit] as they are, and the request goes out. *)
Lemma card_submit_always_sends st :
  requests (exec (SpeciesCard.submit userId supabase) st)
  = SpeciesCard.query userId (values st) :: requests st.
Proof.
  unfold SpeciesCard.submit, SpeciesCard.resolver, handleSubmit.
  unfold exec, bind, set_errors. simpl.
  unfold SpeciesCard.onSubmit, bind, send. simpl.
  destruct (supabase (SpeciesCard.query userId (values st))); reflexivity.
Qed.

End Card.

Section Edit.

Variable URL_ok : jsstring -> bool.
Variable species : Species.
Variable supabase : UpdateRequest -> option jsstring.
Variable useEffect : M unit -> M unit.

Lemma edit_onSubmit_failure input message st :
  supabase (EditSpeciesDialog.query species input) = Some message ->
  EditSpeciesDialog.onSubmit species supabase useEffect input st
  = toast (failure_toast message)
      (requested (EditSpeciesDialog.query species input) st).
Proof.
  intros H. unfold EditSpeciesDialog.onSubmit, bind, send. rewrite H.
  reflexivity.
Qed.

(** Whatever the answer, [onSubmit] has sent exactly its query, as long as
    the [useEffect] call does not retract a request. *)
Lemma edit_onSubmit_requests input st :
  (forall s, requests
               (snd (useEffect
                       (form_reset (EditSpeciesDialog.record_values species))
                       s))
             = requests s) ->
  requests
    (exec (EditSpeciesDialog.onSubmit species supabase useEffect input) st)
  = EditSpeciesDialog.query species input :: requests st.
Proof.
  intros frame. unfold exec, EditSpeciesDialog.onSubmit, bind, send.
  destruct (supabase (EditSpeciesDialog.query species input));
    [reflexivity|].
  match goal with
  | |- context [useEffect ?m ?s] =>
      pose proof (frame s) as F; destruct (useEffect m s) as [[[]|e] s']
  end; simpl in *; exact F.
Qed.

(** With the resolver in place, values the schema rejects never reach
    [onSubmit]: the errors are recorded and nothing else happens. *)
Lemma edit_submit_rejected st issues :
  speciesSchema URL_ok (values st) = Failure issues ->
  EditSpeciesDialog.submit URL_ok species supabase useEffect st
  = set_errors (first_per_field issues) st.
Proof.
  intros H.
  unfold EditSpeciesDialog.submit, EditSpeciesDialog.resolver, handleSubmit,
    zodResolver.
  rewrite H. reflexivity.
Qed.

(** Values the schema accepts reach [onSubmit] as the schema's data. *)
Lemma edit_submit_accepted st data :
  speciesSchema URL_ok (values st) = Success data ->
  EditSpeciesDialog.submit URL_ok species supabase useEffect st
  = EditSpeciesDialog.onSubmit species supabase useEffect data
      (snd (set_errors [] st)).
Proof.
  intros H.
  unfold EditSpeciesDialog.submit, EditSpeciesDialog.resolver, handleSubmit,
    zodResolver.
  rewrite H. reflexivity.
Qed.

End Edit.

End HandlerFacts.

(** ** Submitting *)

Import Js Zod Schema Runtime TrimFacts SchemaFacts HandlerFacts.
Local Open Scope string_scope.

(** The schema on the scenario of section 8: the scientific name is
    trimmed, the empty common name and description become null. *)
Example wolf_input_accepted :
  speciesSchema has_scheme Scenario.wolf_input = Success Scenario.wolf_data.
Proof. reflexivity. Qed.

(** After a successful update [SpeciesCard.onSubmit] has reset the form to
    the submitted data, cleared the details flag [open], left the flag
    [edit] as it was, and asked for one refresh. *)
Lemma card_onSubmit_success_state userId supabase input st :
  supabase (SpeciesCard.query userId input) = None ->
  let st' := exec (SpeciesCard.onSubmit userId supabase input) st in
  values st' = input
  /\ resets st' = input :: resets st
  /\ refreshes st' = S (refreshes st)
  /\ open st' = false
  /\ edit st' = edit st.
Proof.
  intros H. unfold exec. rewrite card_onSubmit_success by assumption.
  simpl. repeat split.
Qed.

(** C1, evaluated on [species-card.tsx]: the edit dialog shows, the wolf
    scenario is submitted and the update succeeds.  The form is reset to the
    submitted data and exactly one refresh is signalled, but the edit dialog
    is not closed: the handler calls [setOpen(false)], and the edit dialog
    is rendered from [edit]. *)
Theorem card_success_leaves_edit_dialog_open :
  let st := Scenario.editing Scenario.wolf_input in
  let st' :=
    exec (SpeciesCard.onSubmit Scenario.owner Scenario.accepts
            Scenario.wolf_data) st in
  SpeciesCard.edit_dialog (SpeciesCard.render st) = true
  /\ values st' = Scenario.wolf_data
  /\ resets st' = [Scenario.wolf_data]
  /\ refreshes st' = 1
  /\ edit st' = true
  /\ SpeciesCard.edit_dialog (SpeciesCard.render st') = true.
Proof. repeat split. Qed.

(** In [edit-species-card.tsx] the dialog is rendered open whatever the
    handler did. *)
Lemma edit_dialog_open_after_submit species supabase useEffect input st :
  EditSpeciesDialog.edit_dialog
    (EditSpeciesDialog.render
       (exec (EditSpeciesDialog.onSubmit species supabase useEffect input) st))
  = true.
Proof. reflexivity. Qed.

(** There, with React's [useEffect], a successful update ends in the hook
    call: the form is not reset and no refresh is signalled. *)
Lemma edit_success_stops_at_hook species supabase input st :
  supabase (EditSpeciesDialog.query species input) = None ->
  EditSpeciesDialog.onSubmit species supabase
    EditSpeciesDialog.useEffect_outside_render input st
  = (Thrown HookOutsideRender,
     requested (EditSpeciesDialog.query species input) st).
Proof.
  intros H. unfold EditSpeciesDialog.onSubmit, bind, send. rewrite H.
  reflexivity.
Qed.

(** C2: when the update request is answered with an error, [onSubmit] of
    either component returns after showing one notification whose
    description is the error message; the two flags (so the edit dialog),
    the field values, the form errors, the resets and the refresh signals
    are as before, and the request sent is the only other trace. *)
Theorem submit_failure_notifies_and_keeps_state
    (userId : value) (species : Species)
    (supabase : UpdateRequest -> option jsstring)
    (useEffect : M unit -> M unit)
    (input : FormData) (message : jsstring) (st : State) :
  (supabase (SpeciesCard.query userId input) = Some message ->
   let r := SpeciesCard.onSubmit userId supabase input st in
   fst r = Returned tt
   /\ only_notified message st (snd r)
   /\ toast_description (hd (failure_toast []) (toasts (snd r))) = message
   /\ requests (snd r) = SpeciesCard.query userId input :: requests st
   /\ SpeciesCard.render (snd r) = SpeciesCard.render st)
  /\
  (supabase (EditSpeciesDialog.query species input) = Some message ->
   let r := EditSpeciesDialog.onSubmit species supabase useEffect input st in
   fst r = Returned tt
   /\ only_notified message st (snd r)
   /\ toast_description (hd (failure_toast []) (toasts (snd r))) = message
   /\ requests (snd r) = EditSpeciesDialog.query species input :: requests st
   /\ EditSpeciesDialog.render (snd r) = EditSpeciesDialog.render st).
Proof.
  split; intros H r; subst r.
  - rewrite card_onSubmit_failure with (message := message) by assumption.
    unfold only_notified. simpl. repeat split.
  - rewrite edit_onSubmit_failure with (message := message) by assumption.
    unfold only_notified. simpl. repeat split.
Qed.

Lemma submit_failure_notifies_and_keeps_state_witness :
  let st := Scenario.editing Scenario.wolf_input in
  (let r := SpeciesCard.onSubmit Scenario.owner Scenario.network_unreachable
              Scenario.wolf_data st in
   fst r = Returned tt
   /\ only_notified (lit "network unreachable") st (snd r)
   /\ toast_description (hd (failure_toast []) (toasts (snd r)))
      = lit "network unreachable"
   /\ requests (snd r)
      = SpeciesCard.query Scenario.owner Scenario.wolf_data :: requests st
   /\ SpeciesCard.render (snd r) = SpeciesCard.render st)
  /\
  (let r := EditSpeciesDialog.onSubmit Scenario.wolf_record
              Scenario.network_unreachable
              EditSpeciesDialog.useEffect_outside_render
              Scenario.wolf_data st in
   fst r = Returned tt
   /\ only_notified (lit "network unreachable") st (snd r)
   /\ toast_description (hd (failure_toast []) (toasts (snd r)))
      = lit "network unreachable"
   /\ requests (snd r)
      = EditSpeciesDialog.query Scenario.wolf_record Scenario.wolf_data
        :: requests st
   /\ EditSpeciesDialog.render (snd r) = EditSpeciesDialog.render st).
Proof.
  intros st.
  destruct (submit_failure_notifies_and_keeps_state Scenario.owner
              Scenario.wolf_record Scenario.network_unreachable
              EditSpeciesDialog.useEffect_outside_render
              Scenario.wolf_data (lit "network unreachable") st)
    as [card dialog].
  split; [apply card | apply dialog]; reflexivity.
Defined.

(** A scientific name of white space only is rejected by the schema. *)
Lemma speciesSchema_rejects_blank_scientific_name URL_ok input s :
  scientific_name input = VString s -> trim s = [] ->
  speciesSchema URL_ok input = Failure (all_issues URL_ok input)
  /\ In {| path := k_scientific_name; code := too_small |}
        (all_issues URL_ok input).
Proof.
  intros E T.
  pose proof (scientific_name_blank URL_ok s T) as B. rewrite <- E in B.
  split.
  - eapply scientific_name_rejected, B.
  - unfold all_issues. rewrite B. rewrite !in_app_iff.
    do 3 right. left. simpl. auto.
Qed.

(** Where the resolver is installed ([edit-species-card.tsx]), a submit
    with such a name records the errors and sends nothing. *)
Lemma edit_submit_blank_scientific_name
    URL_ok species supabase useEffect st s :
  scientific_name (values st) = VString s -> trim s = [] ->
  let r := EditSpeciesDialog.submit URL_ok species supabase useEffect st in
  requests (snd r) = requests st
  /\ errors (snd r) = first_per_field (all_issues URL_ok (values st)).
Proof.
  intros E T r. subst r.
  destruct (speciesSchema_rejects_blank_scientific_name URL_ok _ E T) as [F _].
  rewrite (edit_submit_rejected _ _ _ _ _ F). split; reflexivity.
Qed.

(** C3, evaluated on [species-card.tsx]: the scientific name is three
    spaces.  It trims to the empty string and [speciesSchema] rejects it,
    but the card's form was created without a resolver, so the submit is
    accepted and the update request, carrying the three spaces, is sent. *)
Theorem card_submit_sends_blank_scientific_name :
  let v := Scenario.with_scientific_name (VString (lit "   "))
             Scenario.wolf_input in
  let st' :=
    exec (SpeciesCard.submit Scenario.owner Scenario.accepts)
         (Scenario.editing v) in
  trim (lit "   ") = []
  /\ speciesSchema has_scheme v
     = Failure [{| path := k_scientific_name; code := too_small |}]
  /\ requests st' = [SpeciesCard.query Scenario.owner v]
  /\ get "scientific_name" (SpeciesCard.row Scenario.owner v)
     = VString (lit "   ").
Proof. repeat split. Qed.

(** ** What the update request carries *)

(** The keys of the form, as property names. *)
Definition form_keys : list string :=
  ["common_name"; "description"; "kingdom"; "scientific_name";
   "total_population"; "image"].

(** When [common_name] (or [description]) is a string that trims to the
    empty string, the data the schema produces for it is null, not the
    empty string, and so is the value a row carries when it is built from
    data the schema produced, as it is in [edit-species-card.tsx]. *)
Lemma blank_text_stored_as_null
    (URL_ok : jsstring -> bool) (userId : value) (input data : FormData) :
  speciesSchema URL_ok input = Success data ->
  (forall s, common_name input = VString s -> trim s = [] ->
     common_name data = VNull
     /\ get "common_name" (SpeciesCard.row userId data) = VNull
     /\ get "common_name" (EditSpeciesDialog.row data) = VNull)
  /\
  (forall s, description input = VString s -> trim s = [] ->
     description data = VNull
     /\ get "description" (SpeciesCard.row userId data) = VNull
     /\ get "description" (EditSpeciesDialog.row data) = VNull).
Proof.
  intros H. apply speciesSchema_Success in H.
  destruct H as (Hc & Hd & _).
  split; intros s E T; simpl.
  - rewrite E, (nullable_text_blank URL_ok s T) in Hc.
    injection Hc as <-. repeat split.
  - rewrite E, (nullable_text_blank URL_ok s T) in Hd.
    injection Hd as <-. repeat split.
Qed.

Lemma blank_text_stored_as_null_witness :
  (common_name Scenario.wolf_data = VNull
   /\ get "common_name" (SpeciesCard.row Scenario.owner Scenario.wolf_data)
      = VNull
   /\ get "common_name" (EditSpeciesDialog.row Scenario.wolf_data) = VNull)
  /\
  (description Scenario.wolf_data = VNull
   /\ get "description" (SpeciesCard.row Scenario.owner Scenario.wolf_data)
      = VNull
   /\ get "description" (EditSpeciesDialog.row Scenario.wolf_data) = VNull).
Proof.
  destruct (@blank_text_stored_as_null has_scheme Scenario.owner
              Scenario.wolf_input Scenario.wolf_data eq_refl)
    as [name text].
  split; [apply (name (lit "")) | apply (text (lit ""))]; reflexivity.
Defined.

(** C4, evaluated on [species-card.tsx]: the common name is the empty
    string and the description is two spaces.  Both trim to the empty
    string and [speciesSchema] turns both into null, but the card's form
    was created without a resolver, so [onSubmit] gets the values as typed
    and the update request carries the empty string and the two spaces, not
    null. *)
Theorem card_submit_sends_blank_text :
  let v := CardSession.with_text CardSession.description_input
             (VString (lit "  ")) Scenario.wolf_input in
  let st' :=
    exec (SpeciesCard.submit Scenario.owner Scenario.accepts)
         (Scenario.editing v) in
  trim (lit "") = [] /\ trim (lit "  ") = []
  /\ speciesSchema has_scheme v = Success Scenario.wolf_data
  /\ common_name Scenario.wolf_data = VNull
  /\ description Scenario.wolf_data = VNull
  /\ requests st' = [SpeciesCard.query Scenario.owner v]
  /\ get "common_name" (SpeciesCard.row Scenario.owner v) = VString (lit "")
  /\ get "description" (SpeciesCard.row Scenario.owner v)
     = VString (lit "  ").
Proof. repeat split. Qed.

(** A common name of a tab and two spaces. *)
Example blank_common_name_becomes_null :
  nullable_text has_scheme (VString [9; 32; 32]%N) = Valid VNull.
Proof. reflexivity. Qed.

(** C5: [onSubmit] sends one update request, whatever the answer.  Its one
    row always has all six keys of the form (after [author] in
    [species-card.tsx]), each with the value of the submitted input (in
    [edit-species-card.tsx] with a falsy value replaced by null); no key is
    left out for being unchanged and no value is taken from or compared
    with the record.  The request is scoped by [eq("userId", userId)] in
    [species-card.tsx] and by [eq("species", species.id)] in
    [edit-species-card.tsx].  For the latter [useEffect] is any function
    that does not retract a request. *)
Theorem update_carries_all_fields_and_scope
    (userId : value) (species : Species)
    (supabase : UpdateRequest -> option jsstring)
    (useEffect : M unit -> M unit) (input : FormData) (st : State) :
  (let q := SpeciesCard.query userId input in
   let r := SpeciesCard.row userId input in
   requests (exec (SpeciesCard.onSubmit userId supabase input) st)
   = q :: requests st
   /\ table q = "species" /\ rows q = [r]
   /\ column q = "userId" /\ equals q = userId
   /\ keys r = "author" :: form_keys
   /\ get "common_name" r = common_name input
   /\ get "description" r = description input
   /\ get "kingdom" r = kingdom input
   /\ get "scientific_name" r = scientific_name input
   /\ get "total_population" r = total_population input
   /\ get "image" r = image input)
  /\
  ((forall s, requests
                (snd (useEffect
                        (form_reset (EditSpeciesDialog.record_values species))
                        s))
              = requests s) ->
   let q := EditSpeciesDialog.query species input in
   let r := EditSpeciesDialog.row input in
   requests
     (exec (EditSpeciesDialog.onSubmit species supabase useEffect input) st)
   = q :: requests st
   /\ table q = "species" /\ rows q = [r]
   /\ column q = "species" /\ equals q = row_id species
   /\ keys r = form_keys
   /\ get "common_name" r = or_else (common_name input) VNull
   /\ get "description" r = or_else (description input) VNull
   /\ get "kingdom" r = kingdom input
   /\ get "scientific_name" r = or_else (scientific_name input) VNull
   /\ get "total_population" r = or_else (total_population input) VNull
   /\ get "image" r = or_else (image input) VNull).
Proof.
  split.
  - intros q r. subst q r. split; [apply card_onSubmit_requests|].
    repeat split.
  - intros frame q r. subst q r.
    split; [apply edit_onSubmit_requests, frame|].
    repeat split.
Qed.

Lemma update_carries_all_fields_and_scope_witness :
  let input := Scenario.wolf_data in
  let st := Scenario.editing Scenario.wolf_input in
  let q := EditSpeciesDialog.query Scenario.wolf_record input in
  let r := EditSpeciesDialog.row input in
  requests
    (exec (EditSpeciesDialog.onSubmit Scenario.wolf_record Scenario.accepts
             EditSpeciesDialog.useEffect_outside_render input) st)
  = q :: requests st
  /\ table q = "species" /\ rows q = [r]
  /\ column q = "species" /\ equals q = row_id Scenario.wolf_record
  /\ keys r = form_keys
  /\ get "common_name" r = or_else (common_name input) VNull
  /\ get "description" r = or_else (description input) VNull
  /\ get "kingdom" r = kingdom input
  /\ get "scientific_name" r = or_else (scientific_name input) VNull
  /\ get "total_population" r = or_else (total_population input) VNull
  /\ get "image" r = or_else (image input) VNull.
Proof.
  intros input st.
  apply (proj2 (update_carries_all_fields_and_scope Scenario.owner
                  Scenario.wolf_record Scenario.accepts
                  EditSpeciesDialog.useEffect_outside_render input st)).
  intros s. reflexivity.
Defined.

(** ** The image and the population *)

(** An image that is a string [new URL] does not accept (in particular a
    non-empty one) makes the schema fail with an issue at [image]; an image
    string the schema accepts comes out trimmed, and the trimmed string is
    what a row carries when it is built from data the schema produced, as
    it is in [edit-species-card.tsx].  [new URL] accepts no string of
    white space. *)
Lemma image_url_checked_and_trimmed
    (URL_ok : jsstring -> bool) (userId : value) (input : FormData)
    (s : jsstring) :
  (forall x, URL_ok x = true -> trim x <> []) ->
  image input = VString s ->
  (URL_ok s = false ->
   speciesSchema URL_ok input = Failure (all_issues URL_ok input)
   /\ In {| path := k_image; code := invalid_string |}
         (all_issues URL_ok input))
  /\
  (forall data, speciesSchema URL_ok input = Success data ->
     image data = VString (trim s)
     /\ get "image" (SpeciesCard.row userId data) = VString (trim s)
     /\ get "image" (EditSpeciesDialog.row data) = VString (trim s)).
Proof.
  intros not_blank E. split.
  - intros U. exact (image_not_URL URL_ok input E U).
  - intros data H. apply speciesSchema_Success in H.
    destruct H as (_ & _ & _ & _ & _ & H).
    rewrite E, image_string in H.
    destruct (URL_ok s) eqn:U; [|discriminate H].
    injection H as H. simpl. rewrite <- H. repeat split.
    unfold or_else, truthy.
    destruct (eqb_string (trim s) []) eqn:T; [|reflexivity].
    apply eqb_string_true in T. elim (not_blank s U T).
Qed.

Lemma image_url_checked_and_trimmed_witness :
  let bad := Scenario.with_image (VString (lit "not a url"))
               Scenario.wolf_input in
  let s := lit " https://example.com/wolf.jpg " in
  (speciesSchema has_scheme bad = Failure (all_issues has_scheme bad)
   /\ In {| path := k_image; code := invalid_string |}
         (all_issues has_scheme bad))
  /\
  (trim s = lit "https://example.com/wolf.jpg"
   /\ image Scenario.wolf_data = VString (trim s)
   /\ get "image" (SpeciesCard.row Scenario.owner Scenario.wolf_data)
      = VString (trim s)
   /\ get "image" (EditSpeciesDialog.row Scenario.wolf_data)
      = VString (trim s)).
Proof.
  intros bad s. split.
  - apply (proj1 (@image_url_checked_and_trimmed has_scheme Scenario.owner
                    bad (lit "not a url") has_scheme_not_blank eq_refl)).
    reflexivity.
  - split; [reflexivity|].
    apply (proj2 (@image_url_checked_and_trimmed has_scheme Scenario.owner
                    (Scenario.with_image (VString s) Scenario.wolf_input) s
                    has_scheme_not_blank eq_refl)).
    reflexivity.
Defined.

(** C6, evaluated on [species-card.tsx]: first the image is a URL with a
    space on either side, then it is not a URL.  [speciesSchema] accepts the
    first and produces the trimmed URL, and rejects the second; but the
    card's form was created without a resolver, so both submits are
    accepted: the first request carries the image with its spaces, the
    second the text that is no URL. *)
Theorem card_submit_sends_unchecked_image :
  let spaced := Scenario.with_image
                  (VString (lit " https://example.com/wolf.jpg "))
                  Scenario.wolf_input in
  let bad := Scenario.with_image (VString (lit "not a url"))
               Scenario.wolf_input in
  let sent v :=
    requests (exec (SpeciesCard.submit Scenario.owner Scenario.accepts)
                   (Scenario.editing v)) in
  speciesSchema has_scheme spaced = Success Scenario.wolf_data
  /\ image Scenario.wolf_data = VString (lit "https://example.com/wolf.jpg")
  /\ sent spaced = [SpeciesCard.query Scenario.owner spaced]
  /\ get "image" (SpeciesCard.row Scenario.owner spaced)
     = VString (lit " https://example.com/wolf.jpg ")
  /\ speciesSchema has_scheme bad
     = Failure [{| path := k_image; code := invalid_string |}]
  /\ sent bad = [SpeciesCard.query Scenario.owner bad]
  /\ get "image" (SpeciesCard.row Scenario.owner bad)
     = VString (lit "not a url").
Proof. repeat split. Qed.

(** The image ["not a url"] is rejected; an image with spaces around a URL
    the parameter accepts is stored without them. *)
Example image_not_a_url_rejected :
  speciesSchema has_scheme
    (Scenario.with_image (VString (lit "not a url")) Scenario.wolf_input)
  = Failure [{| path := k_image; code := invalid_string |}].
Proof. reflexivity. Qed.

Example image_trimmed :
  image_schema has_scheme (VString (lit " https://example.com/wolf.jpg "))
  = Valid (VString (lit "https://example.com/wolf.jpg")).
Proof. reflexivity. Qed.



(** Zero and a negative count are rejected, one is accepted. *)
Example total_population_zero_rejected :
  speciesSchema has_scheme
    (Scenario.with_total_population (VNumber (Finite 0%Q)) Scenario.wolf_input)
  = Failure [{| path := k_total_population; code := too_small |};
             {| path := k_total_population; code := too_small |}].
Proof. reflexivity. Qed.

Example total_population_negative_rejected :
  total_population_schema (VNumber (Finite (-3 # 1)))
  = Invalid [too_small; too_small].
Proof. reflexivity. Qed.

Example total_population_one_accepted :
  total_population_schema (VNumber (Finite 1%Q)) = Valid (VNumber (Finite 1%Q)).
Proof. reflexivity. Qed.

(** ** The dialogs *)

(** In [species-card.tsx] both flags start false, each dialog is rendered
    from its own flag, each setter leaves the other flag alone, and both
    dialogs can be open together. *)
Lemma card_dialogs_follow_flags userId supabase :
  open SpeciesCard.init = false
  /\ edit SpeciesCard.init = false
  /\ (forall st,
        SpeciesCard.details_dialog (SpeciesCard.render st) = open st
        /\ SpeciesCard.edit_dialog (SpeciesCard.render st) = edit st)
  /\ (forall b st,
        open (exec (setOpen b) st) = b /\ edit (exec (setOpen b) st) = edit st)
  /\ (forall b st,
        edit (exec (setEdit b) st) = b /\ open (exec (setEdit b) st) = open st)
  /\ SpeciesCard.render
       (SpeciesCard.run userId supabase
          [SpeciesCard.ClickLearnMore; SpeciesCard.ClickEdit] SpeciesCard.init)
     = {| SpeciesCard.details_dialog := true; SpeciesCard.edit_dialog := true |}.
Proof. repeat split. Qed.

(** C8, evaluated on [edit-species-card.tsx]: both flags start false, but
    the dialog is rendered with [open={true}]: it shows in the initial
    state, where [edit] is false, and still shows after Cancel has set
    [edit] to false, so its visibility does not follow its flag. *)
Theorem edit_dialog_ignores_its_flag :
  let st := EditSpeciesDialog.init Scenario.wolf_record in
  let st' :=
    EditSpeciesDialog.run has_scheme Scenario.wolf_record Scenario.accepts
      EditSpeciesDialog.useEffect_outside_render
      [EditSpeciesDialog.ClickCancel] st in
  open st = false
  /\ edit st = false
  /\ EditSpeciesDialog.edit_dialog (EditSpeciesDialog.render st) = true
  /\ edit st' = false
  /\ EditSpeciesDialog.edit_dialog (EditSpeciesDialog.render st') = true.
Proof. repeat split. Qed.

(** ** The empty image *)

(** Provided [new URL("")] throws, the schema rejects an image that is the
    empty string, with an issue at [image]; null is accepted for an absent
    image and undefined is not.  In [edit-species-card.tsx], where the
    resolver is installed, a submit with the image field empty records the
    errors and sends nothing; a record without an image starts the form in
    that state. *)
Lemma empty_image_rejected
    (URL_ok : jsstring -> bool) (species : Species)
    (supabase : UpdateRequest -> option jsstring)
    (useEffect : M unit -> M unit) :
  URL_ok [] = false ->
  (forall input, image input = VString [] ->
     speciesSchema URL_ok input = Failure (all_issues URL_ok input)
     /\ In {| path := k_image; code := invalid_string |}
           (all_issues URL_ok input))
  /\ image_schema URL_ok VNull = Valid VUndefined
  /\ image_schema URL_ok VUndefined = Invalid [invalid_type]
  /\ (forall st, image (values st) = VString [] ->
        let r := EditSpeciesDialog.submit URL_ok species supabase useEffect st in
        fst r = Returned tt
        /\ requests (snd r) = requests st
        /\ errors (snd r) = first_per_field (all_issues URL_ok (values st))
        /\ values (snd r) = values st
        /\ refreshes (snd r) = refreshes st)
  /\ (row_image species = VNull ->
      image (values (EditSpeciesDialog.init species)) = VString []).
Proof.
  intros empty.
  split; [|split; [reflexivity|split; [reflexivity|split]]].
  - intros input E. exact (image_not_URL URL_ok input E empty).
  - intros st E r. subst r.
    destruct (image_not_URL URL_ok (values st) E empty) as [F _].
    rewrite (edit_submit_rejected _ _ _ _ _ F). repeat split.
  - intros N. simpl. rewrite N. reflexivity.
Qed.

Example empty_image_blocks_edit_submit :
  let v := Scenario.with_image (VString []) Scenario.wolf_input in
  let r := EditSpeciesDialog.submit has_scheme Scenario.wolf_record
             Scenario.accepts EditSpeciesDialog.useEffect_outside_render
             (Scenario.editing v) in
  fst r = Returned tt
  /\ requests (snd r) = []
  /\ errors (snd r) = [{| path := k_image; code := invalid_string |}]
  /\ values (snd r) = v
  /\ refreshes (snd r) = 0.
Proof. repeat split. Qed.

(** C9, evaluated on [species-card.tsx]: the image field has been cleared
    and holds the empty string.  [speciesSchema] rejects it, with an issue
    at [image], while it accepts null; but the card's form was created
    without a resolver, so the submit is accepted and the update request,
    carrying the empty string as image, is sent. *)
Theorem card_submit_sends_empty_image :
  let v := Scenario.with_image (VString []) Scenario.wolf_input in
  let st' :=
    exec (SpeciesCard.submit Scenario.owner Scenario.accepts)
         (Scenario.editing v) in
  speciesSchema has_scheme v
  = Failure [{| path := k_image; code := invalid_string |}]
  /\ image_schema has_scheme VNull = Valid VUndefined
  /\ requests st' = [SpeciesCard.query Scenario.owner v]
  /\ get "image" (SpeciesCard.row Scenario.owner v) = VString []
  /\ refreshes st' = 1.
Proof. repeat split. Qed.

(** ** The kingdom select *)

Lemma select_items_values : map item_value select_items = kingdoms_options.
Proof. reflexivity. Qed.

Lemma kingdoms_accepts_option k :
  In k kingdoms_options -> kingdoms (VString k) = Valid k.
Proof.
  intros H. unfold kingdoms, z_enum.
  replace (existsb (eqb_string k) kingdoms_options) with true; [reflexivity|].
  symmetry. apply existsb_exists. exists k. split; [exact H|].
  apply eqb_string_refl.
Qed.

Lemma kingdoms_rejects_other v :
  (forall k, In k kingdoms_options -> v <> VString k) ->
  exists issues, kingdoms v = Invalid issues.
Proof.
  intros H. destruct v as [| |s|n]; try (eexists; reflexivity).
  unfold kingdoms, z_enum.
  destruct (existsb (eqb_string s) kingdoms_options) eqn:E.
  - apply existsb_exists in E. destruct E as (k & I & E).
    apply eqb_string_true in E. subst k. now elim (H s I).
  - eexists. reflexivity.
Qed.

(** C10: the change handler of the kingdom select, the same in both
    components, throws on every value outside the six options of
    [kingdoms] and changes nothing then; on the value of each item the
    select renders, one per option, it returns and sets the kingdom, so no
    item of the select makes it throw. *)
Theorem kingdom_select_never_throws :
  List.length kingdoms_options = 6
  /\ (forall v st,
        (forall k, In k kingdoms_options -> v <> VString k) ->
        onValueChange v st = (Thrown ZodError, st))
  /\ (forall item st,
        In item select_items ->
        In (item_value item) kingdoms_options
        /\ onValueChange (VString (item_value item)) st
           = set_values
               (with_kingdom (VString (item_value item)) (values st)) st)
  /\ (forall userId supabase v,
        SpeciesCard.handle userId supabase (SpeciesCard.SelectKingdom v)
        = onValueChange v)
  /\ (forall URL_ok species supabase useEffect v,
        EditSpeciesDialog.handle URL_ok species supabase useEffect
          (EditSpeciesDialog.SelectKingdom v)
        = onValueChange v).
Proof.
  split; [reflexivity|]. split; [|split; [|split; reflexivity]].
  - intros v st H. unfold onValueChange, parse.
    destruct (@kingdoms_rejects_other v H) as [issues ->]. reflexivity.
  - intros item st H.
    assert (I : In (item_value item) kingdoms_options)
      by (rewrite <- select_items_values; apply in_map, H).
    split; [exact I|].
    unfold onValueChange, parse. rewrite (@kingdoms_accepts_option _ I).
    reflexivity.
Qed.

Lemma kingdom_select_never_throws_witness :
  let st := Scenario.editing Scenario.wolf_input in
  onValueChange (VString (lit "Animal")) st = (Thrown ZodError, st)
  /\ kingdom (values (exec (onValueChange (VString (lit "Fungi"))) st))
     = VString (lit "Fungi").
Proof.
  intros st.
  destruct kingdom_select_never_throws as (_ & outside & inside & _).
  split.
  - apply outside. intros k H. simpl in H.
    decompose [or] H; try contradiction; subst k; discriminate.
  - unfold exec.
    pose proof (proj2 (inside {| key := 2; item_value := lit "Fungi" |} st
                         ltac:(simpl; tauto))) as E.
    simpl item_value in E. rewrite E. reflexivity.
Defined.

(** * Further properties of the two components *)

(** ** More on trimming *)

Module TrimMore.
Import Js TrimFacts.
Local Open Scope list_scope.

Lemma trimStart_idem s : trimStart (trimStart s) = trimStart s.
Proof.
  induction s as [|c s IH]; simpl; trivial.
  destruct (is_white_space c) eqn:E; trivial.
  simpl. rewrite E. reflexivity.
Qed.

Lemma trimStart_head s c r :
  trimStart s = c :: r -> is_white_space c = false.
Proof.
  induction s as [|a s IH]; simpl; [discriminate|].
  destruct (is_white_space a) eqn:E; trivial.
  intros H. injection H as <- _. exact E.
Qed.

Lemma trimStart_snoc l c :
  is_white_space c = false -> trimStart (l ++ [c]) = trimStart l ++ [c].
Proof.
  intros W. induction l as [|a l IH]; simpl.
  - rewrite W. reflexivity.
  - destruct (is_white_space a); [exact IH | reflexivity].
Qed.

Lemma trimEnd_cons c u :
  is_white_space c = false -> trimEnd (c :: u) = c :: trimEnd u.
Proof.
  intros W. unfold trimEnd. simpl.
  rewrite trimStart_snoc by exact W. rewrite rev_app_distr. reflexivity.
Qed.

Lemma trimEnd_idem u : trimEnd (trimEnd u) = trimEnd u.
Proof.
  unfold trimEnd. rewrite rev_involutive, trimStart_idem. reflexivity.
Qed.

(** Trimming the end of a string that has no leading white space leaves
    none in front. *)
Lemma trimStart_trimEnd s :
  trimStart (trimEnd (trimStart s)) = trimEnd (trimStart s).
Proof.
  destruct (trimStart s) as [|c r] eqn:E; [reflexivity|].
  pose proof (@trimStart_head _ _ _ E) as W.
  rewrite trimEnd_cons by exact W. simpl. rewrite W. reflexivity.
Qed.

(** Trimming twice is trimming once. *)
Lemma trim_idem s : trim (trim s) = trim s.
Proof.
  unfold trim at 1. unfold trim.
  rewrite trimStart_trimEnd, trimEnd_idem. reflexivity.
Qed.

Lemma trimStart_length s : List.length (trimStart s) <= List.length s.
Proof.
  induction s as [|c s IH]; simpl; trivial.
  destruct (is_white_space c); simpl; lia.
Qed.

Lemma trim_length s : List.length (trim s) <= List.length s.
Proof.
  unfold trim, trimEnd. rewrite length_rev.
  etransitivity; [apply trimStart_length|]. rewrite length_rev.
  apply trimStart_length.
Qed.

End TrimMore.

(** ** What the schema accepts and what it produces *)

Module SchemaSpec.
Import Js Zod Schema TrimFacts TrimMore SchemaFacts.
Local Open Scope list_scope.

(** [common_name] and [description]: null gives undefined; a string gives
    null when it is white space only and its trimmed text otherwise. *)
Definition text_ok (v d : value) : Prop :=
  (v = VNull /\ d = VUndefined)
  \/ exists s, v = VString s
               /\ d = (if blank s then VNull else VString (trim s)).

(** [kingdom]: one of the six options, unchanged. *)
Definition kingdom_ok (v d : value) : Prop :=
  exists k, v = VString k /\ In k kingdoms_options /\ d = v.

(** [scientific_name]: a string that is not white space only, trimmed. *)
Definition name_ok (v d : value) : Prop :=
  exists s, v = VString s /\ blank s = false /\ d = VString (trim s).

(** [total_population]: undefined, or an integer from one up, unchanged. *)
Definition population_ok (v d : value) : Prop :=
  d = v
  /\ (v = VUndefined
      \/ exists q, v = VNumber (Finite q)
                   /\ isInteger (Finite q) = true
                   /\ le (Finite 1%Q) (Finite q) = true).

Section WithURL.

Variable URL_ok : jsstring -> bool.

(** [image]: null gives undefined; a string [new URL] accepts gives its
    trimmed text. *)
Definition image_ok (v d : value) : Prop :=
  (v = VNull /\ d = VUndefined)
  \/ exists s, v = VString s /\ URL_ok s = true /\ d = VString (trim s).

Lemma eqb_trim_blank s : eqb_string (trim s) [] = blank s.
Proof.
  destruct (blank s) eqn:B.
  - apply trim_nil_iff in B. rewrite B. reflexivity.
  - destruct (eqb_string (trim s) []) eqn:E; trivial.
    apply eqb_string_true, trim_nil_iff in E. congruence.
Qed.

Lemma nullable_text_valid_iff v d :
  nullable_text URL_ok v = Valid d <-> text_ok v d.
Proof.
  unfold text_ok. destruct v as [| |s|n].
  - split; [discriminate|]. intros [[E _]|(s & E & _)]; discriminate.
  - split.
    + intros H. left. split; [reflexivity|]. now injection H as <-.
    + intros [[_ ->]|(s & E & _)]; [reflexivity | discriminate].
  - rewrite nullable_text_string, eqb_trim_blank. split.
    + intros H. right. exists s. split; [reflexivity|]. now injection H as <-.
    + intros [[E _]|(s' & E & ->)]; [discriminate|].
      injection E as <-. reflexivity.
  - split; [discriminate|]. intros [[E _]|(s & E & _)]; discriminate.
Qed.

Lemma kingdom_valid_iff v d : kingdom_schema v = Valid d <-> kingdom_ok v d.
Proof.
  unfold kingdom_ok, kingdom_schema, transform, kingdoms, z_enum.
  destruct v as [| |s|n];
    try (split; [discriminate | intros (k & E & _); discriminate]).
  destruct (existsb (eqb_string s) kingdoms_options) eqn:X.
  - split.
    + intros H. injection H as <-. exists s. repeat split.
      apply existsb_exists in X. destruct X as (k & I & E).
      apply eqb_string_true in E. now subst k.
    + intros (k & E & _ & ->). reflexivity.
  - split; [discriminate|]. intros (k & E & I & _). injection E as <-.
    assert (T : existsb (eqb_string s) kingdoms_options = true)
      by (apply existsb_exists; exists s; split;
          [exact I | apply eqb_string_refl]).
    congruence.
Qed.

Lemma scientific_name_valid_iff v d :
  scientific_name_schema URL_ok v = Valid d <-> name_ok v d.
Proof.
  unfold name_ok. destruct v as [| |s|n];
    try (split; [discriminate | intros (k & E & _); discriminate]).
  rewrite scientific_name_string. split.
  - intros H. exists s. split; [reflexivity|].
    destruct (trim s) as [|c r] eqn:T; [discriminate|].
    injection H as <-. rewrite <- T, trim_idem. split; [|reflexivity].
    destruct (blank s) eqn:B; trivial.
    apply trim_nil_iff in B. congruence.
  - intros (s' & E & B & ->). injection E as <-.
    destruct (trim s) as [|c r] eqn:T.
    + apply trim_nil_iff in T. congruence.
    + rewrite <- T, trim_idem. reflexivity.
Qed.

Lemma total_population_valid_iff v d :
  total_population_schema v = Valid d <-> population_ok v d.
Proof.
  unfold population_ok. destruct v as [| |s|n].
  - split.
    + intros H. injection H as <-. split; [reflexivity | now left].
    + intros [-> _]. reflexivity.
  - split; [discriminate|].
    intros [_ [E|(q & E & _)]]; discriminate.
  - split; [discriminate|].
    intros [_ [E|(q & E & _)]]; discriminate.
  - split.
    + intros H. destruct n as [| | |q]; try discriminate H.
      destruct (isInteger (Finite q)) eqn:I.
      * destruct (le (Finite 1%Q) (Finite q)) eqn:L.
        -- rewrite (total_population_accepts q I L) in H.
           injection H as <-. split; [reflexivity|]. right. exists q.
           repeat split; assumption.
        -- exfalso. revert H.
           unfold total_population_schema, transform, optional, z_number.
           simpl in *. rewrite I, L.
           destruct (Qle_bool q 0); discriminate.
      * destruct (total_population_not_integer _ I) as (cs & B).
        congruence.
    + intros [-> [E|(q & E & I & L)]]; [discriminate|].
      injection E as ->. apply total_population_accepts; assumption.
Qed.

Lemma image_valid_iff v d : image_schema URL_ok v = Valid d <-> image_ok v d.
Proof.
  unfold image_ok. destruct v as [| |s|n].
  - split; [discriminate|]. intros [[E _]|(s & E & _)]; discriminate.
  - split.
    + intros H. left. split; [reflexivity|]. now injection H as <-.
    + intros [[_ ->]|(s & E & _)]; [reflexivity | discriminate].
  - rewrite image_string. split.
    + intros H. right. exists s. destruct (URL_ok s); [|discriminate].
      injection H as <-. repeat split.
    + intros [[E _]|(s' & E & U & ->)]; [discriminate|].
      injection E as <-. rewrite U. reflexivity.
  - split; [discriminate|]. intros [[E _]|(s & E & _)]; discriminate.
Qed.

(** The schema accepts an object, and produces [data], exactly when every
    key is as described above. *)
Lemma accepts_iff (input data : FormData) :
  speciesSchema URL_ok input = Success data <->
  text_ok (common_name input) (common_name data)
  /\ text_ok (description input) (description data)
  /\ kingdom_ok (kingdom input) (kingdom data)
  /\ name_ok (scientific_name input) (scientific_name data)
  /\ population_ok (total_population input) (total_population data)
  /\ image_ok (image input) (image data).
Proof.
  rewrite speciesSchema_Success.
  rewrite !nullable_text_valid_iff, kingdom_valid_iff,
    scientific_name_valid_iff, total_population_valid_iff, image_valid_iff.
  reflexivity.
Qed.

(** A string is trimmed: trimming it changes nothing. *)
Definition trimmed (s : jsstring) : Prop := trim s = s.

(** What accepted data looks like: the scientific name is a non-empty
    trimmed string, the kingdom is one of the six, the common name and the
    description are null, undefined or a non-empty trimmed string (never
    the empty string), the population is undefined or an integer from one
    up, the image is undefined or a trimmed string. *)
Lemma output_shape (input data : FormData) :
  speciesSchema URL_ok input = Success data ->
  (exists n, scientific_name data = VString n /\ n <> [] /\ trimmed n)
  /\ (exists k, kingdom data = VString k /\ In k kingdoms_options)
  /\ (common_name data = VNull \/ common_name data = VUndefined
      \/ exists t, common_name data = VString t /\ t <> [] /\ trimmed t)
  /\ (description data = VNull \/ description data = VUndefined
      \/ exists t, description data = VString t /\ t <> [] /\ trimmed t)
  /\ (total_population data = VUndefined
      \/ exists q, total_population data = VNumber (Finite q)
                   /\ isInteger (Finite q) = true
                   /\ le (Finite 1%Q) (Finite q) = true)
  /\ (image data = VUndefined
      \/ exists u, image data = VString u /\ trimmed u).
Proof.
  intros H. apply accepts_iff in H.
  destruct H as (Hc & Hd & Hk & Hn & Hp & Hi).
  assert (text : forall v d, text_ok v d ->
            d = VNull \/ d = VUndefined
            \/ exists t, d = VString t /\ t <> [] /\ trimmed t).
  { intros v d [[_ ->]|(s & _ & ->)]; [auto|].
    destruct (blank s) eqn:B; [auto|]. right. right.
    exists (trim s). repeat split.
    - intros T. apply trim_nil_iff in T. congruence.
    - apply trim_idem. }
  repeat split.
  - destruct Hn as (s & _ & B & ->). exists (trim s). repeat split.
    + intros T. apply trim_nil_iff in T. congruence.
    + apply trim_idem.
  - destruct Hk as (k & E & I & ->). exists k. split; assumption.
  - exact (text _ _ Hc).
  - exact (text _ _ Hd).
  - destruct Hp as [-> [E|(q & E & I & L)]]; [now left|].
    right. exists q. repeat split; assumption.
  - destruct Hi as [[_ ->]|(s & _ & _ & ->)]; [now left|].
    right. exists (trim s). split; [reflexivity | apply trim_idem].
Qed.

(** X1: the schema accepts an object, and produces [data], exactly when
    every key is acceptable and [data] holds, key by key, what [text_ok],
    [kingdom_ok], [name_ok], [population_ok] and [image_ok] describe. *)
Theorem speciesSchema_accepts_iff (input data : FormData) :
  speciesSchema URL_ok input = Success data <->
  text_ok (common_name input) (common_name data)
  /\ text_ok (description input) (description data)
  /\ kingdom_ok (kingdom input) (kingdom data)
  /\ name_ok (scientific_name input) (scientific_name data)
  /\ population_ok (total_population input) (total_population data)
  /\ image_ok (image input) (image data).
Proof. apply accepts_iff. Qed.

(** X2: accepted data has a non-empty trimmed scientific name and one of
    the six kingdoms; its common name and description are null, undefined
    or a non-empty trimmed string, never the empty string; its population
    is undefined or an integer from one up; its image is undefined or a
    trimmed string. *)
Theorem speciesSchema_output_invariant (input data : FormData) :
  speciesSchema URL_ok input = Success data ->
  (exists n, scientific_name data = VString n /\ n <> [] /\ trimmed n)
  /\ (exists k, kingdom data = VString k /\ In k kingdoms_options)
  /\ (common_name data = VNull \/ common_name data = VUndefined
      \/ exists t, common_name data = VString t /\ t <> [] /\ trimmed t)
  /\ (description data = VNull \/ description data = VUndefined
      \/ exists t, description data = VString t /\ t <> [] /\ trimmed t)
  /\ (total_population data = VUndefined
      \/ exists q, total_population data = VNumber (Finite q)
                   /\ isInteger (Finite q) = true
                   /\ le (Finite 1%Q) (Finite q) = true)
  /\ (image data = VUndefined
      \/ exists u, image data = VString u /\ trimmed u).
Proof. apply output_shape. Qed.

(** X3: data the schema produced from a null common name, description or
    image holds undefined there, and the schema does not accept it
    again. *)
Theorem speciesSchema_rejects_own_output (input data : FormData) :
  speciesSchema URL_ok input = Success data ->
  common_name input = VNull \/ description input = VNull
  \/ image input = VNull ->
  speciesSchema URL_ok data = Failure (all_issues URL_ok data)
  /\ all_issues URL_ok data <> [].
Proof.
  intros H N. apply accepts_iff in H.
  destruct H as (Hc & Hd & _ & _ & _ & Hi).
  assert (U : common_name data = VUndefined \/ description data = VUndefined
              \/ image data = VUndefined).
  { destruct N as [N|[N|N]].
    - left. destruct Hc as [[_ E]|(s & E & _)]; congruence.
    - right. left. destruct Hd as [[_ E]|(s & E & _)]; congruence.
    - right. right. destruct Hi as [[_ E]|(s & E & _)]; congruence. }
  assert (F : forall d, speciesSchema URL_ok data <> Success d).
  { intros d S. apply accepts_iff in S.
    destruct S as (Sc & Sd & _ & _ & _ & Si).
    destruct U as [U|[U|U]].
    - destruct Sc as [[E _]|(s & E & _)]; congruence.
    - destruct Sd as [[E _]|(s & E & _)]; congruence.
    - destruct Si as [[E _]|(s & E & _)]; congruence. }
  split; [apply speciesSchema_Failure, F|].
  unfold all_issues. destruct U as [U|[U|U]]; rewrite U; simpl;
    try discriminate.
  - destruct (issues_at k_common_name _); discriminate.
  - destruct (issues_at k_common_name _), (issues_at k_description _),
      (issues_at k_kingdom _), (issues_at k_scientific_name _),
      (issues_at k_total_population _); discriminate.
Qed.

End WithURL.

End SchemaSpec.

(** ** The card's summary *)

Module CardViewFacts.
Import Js Runtime TrimMore CardView.
Local Open Scope list_scope.

(** X4: for a description that is a string, null or undefined the summary
    line is computed without throwing; it is at most 153 code units long,
    empty exactly when the description is falsy (null, undefined or the
    empty string), and a description of at most 150 code units is shown
    whole, trimmed, and still followed by the ellipsis. *)
Theorem blurb_bounded (species : Species) :
  (row_description species = VNull \/ row_description species = VUndefined
   \/ exists s, row_description species = VString s) ->
  exists t,
    blurb species = Some t
    /\ List.length t <= 153
    /\ (t = [] <-> truthy (row_description species) = false)
    /\ (forall s, row_description species = VString s -> s <> [] ->
        List.length s <= 150 -> t = trim s ++ lit "...").
Proof.
  unfold blurb. intros [E|[E|(s & E)]]; rewrite E; cbn [truthy].
  - exists []. repeat split; try (simpl; lia); discriminate.
  - exists []. repeat split; try (simpl; lia); discriminate.
  - destruct (eqb_string s []) eqn:B; cbn [negb].
    + exists []. repeat split; try (simpl; lia).
      intros s' S N. injection S as <-.
      apply eqb_string_true in B. contradiction.
    + exists (trim (firstn 150 s) ++ lit "..."). split; [reflexivity|].
      assert (D : List.length (lit "...") = 3) by reflexivity.
      split; [|split].
      * rewrite length_app, D.
        pose proof (trim_length (firstn 150 s)).
        pose proof (firstn_le_length 150 s). lia.
      * split; [|discriminate]. intros T.
        apply (f_equal (@List.length N)) in T.
        rewrite length_app, D in T. simpl in T. lia.
      * intros s' S _ L. injection S as <-.
        rewrite firstn_all2 by exact L. reflexivity.
Qed.

Example blurb_short :
  blurb {| row_id := VNull; row_author := VNull;
           row_scientific_name := VString (lit "Canis lupus");
           row_common_name := VNull; row_kingdom := VString (lit "Animalia");
           row_total_population := VNull; row_image := VNull;
           row_description := VString (lit " A wolf. ") |}
  = Some (lit "A wolf....").
Proof. reflexivity. Qed.

End CardViewFacts.

(** ** A session with the card *)

Module CardSessionFacts.
Import Js Zod Schema Runtime HandlerFacts CardSession.
Local Open Scope list_scope.
Local Open Scope string_scope.

(** A kingdom field holds nothing yet or one of the six options. *)
Definition kingdom_field_ok (v : value) : Prop :=
  v = VUndefined \/ exists k, v = VString k /\ In k kingdoms_options.

(** Every request sent so far has, in each row, a kingdom as [P] wants. *)
Definition requests_kingdom (P : value -> Prop) (st : State) : Prop :=
  Forall (fun q => Forall (fun r => P (get "kingdom" r)) (rows q))
         (requests st).

Section Session.

Variable userId : value.
Variable supabase : UpdateRequest -> option jsstring.

Lemma with_text_kingdom k x v : kingdom (with_text k x v) = kingdom v.
Proof. destruct k; reflexivity. Qed.

(** What one submit does: the request with the current values goes out,
    and then either a notification or a reset and a refresh follows. *)
Lemma submit_step st :
  let st' := exec (handle userId supabase (Ui SpeciesCard.SubmitForm)) st in
  requests st' = SpeciesCard.query userId (values st) :: requests st
  /\ values st' = values st
  /\ edit st' = edit st
  /\ ((exists m, toasts st' = failure_toast m :: toasts st
                 /\ refreshes st' = refreshes st)
      \/ (toasts st' = toasts st /\ refreshes st' = S (refreshes st))).
Proof.
  unfold exec, handle, SpeciesCard.handle, SpeciesCard.submit,
    SpeciesCard.resolver, handleSubmit, bind, set_errors.
  unfold SpeciesCard.onSubmit, bind, send. simpl.
  destruct (supabase (SpeciesCard.query userId (values st))) as [m|]; simpl.
  - repeat split. left. exists m. split; reflexivity.
  - repeat split. right. split; reflexivity.
Qed.

(** Every other event leaves requests, notifications and refreshes. *)
Lemma other_step e st :
  is_submit e = false ->
  let st' := exec (handle userId supabase e) st in
  requests st' = requests st /\ toasts st' = toasts st
  /\ refreshes st' = refreshes st.
Proof.
  intros H. destruct e as [[ |b| |b| |v| ]|k s|n]; try discriminate H;
    try (repeat split; fail).
  unfold exec, handle, SpeciesCard.handle, onValueChange.
  destruct (parse kingdoms v); repeat split.
Qed.

(** X5: each submit of the card sends exactly one update request, and is
    answered by exactly one notification or one refresh; nothing else the
    user does sends a request, shows a notification or refreshes. *)
Theorem card_one_request_per_submit (es : list event) (st : State) :
  let st' := run userId supabase es st in
  let n := List.length (filter is_submit es) in
  List.length (requests st') = List.length (requests st) + n
  /\ refreshes st' + List.length (toasts st')
     = refreshes st + List.length (toasts st) + n.
Proof.
  revert st. induction es as [|e es IH]; intros st; simpl.
  - split; lia.
  - destruct (IH (exec (handle userId supabase e) st)) as [R T].
    unfold run in *. simpl in *. rewrite R, T. clear R T IH.
    destruct (is_submit e) eqn:S.
    + destruct e as [[ |b| |b| |v| ]|k s|n]; try discriminate S.
      destruct (submit_step st) as (Q & _ & _ & [(m & A & B)|[A B]]);
        rewrite Q, A, B; simpl; split; lia.
    + destruct (other_step e st S) as (Q & A & B).
      rewrite Q, A, B. split; lia.
Qed.

Lemma edit_step e st :
  closes_edit e = false -> edit st = true ->
  edit (exec (handle userId supabase e) st) = true.
Proof.
  intros C E. destruct e as [[ |b| |b| |v| ]|k s|n]; try discriminate C;
    try exact E; try reflexivity.
  - destruct b; [reflexivity | discriminate C].
  - unfold exec, handle, SpeciesCard.handle, onValueChange.
    destruct (parse kingdoms v); exact E.
  - destruct (submit_step st) as (_ & _ & -> & _). exact E.
Qed.

(** X6: once the edit dialog of the card is open, it stays open through
    everything but Cancel and the dialog's own close: no submit, however
    it is answered, closes it. *)
Theorem card_edit_dialog_stays_open (es : list event) (st : State) :
  forallb (fun e => negb (closes_edit e)) es = true ->
  SpeciesCard.edit_dialog (SpeciesCard.render st) = true ->
  SpeciesCard.edit_dialog
    (SpeciesCard.render (run userId supabase es st)) = true.
Proof.
  revert st. induction es as [|e es IH]; intros st; simpl; trivial.
  intros H E. apply andb_true_iff in H. destruct H as [C H].
  apply negb_true_iff in C.
  apply IH; [exact H|]. simpl. apply edit_step; assumption.
Qed.

Lemma kingdoms_valid_option v k :
  kingdoms v = Valid k -> v = VString k /\ In k kingdoms_options.
Proof.
  unfold kingdoms, z_enum. destruct v as [| |s|n]; try discriminate.
  destruct (existsb (eqb_string s) kingdoms_options) eqn:X; [|discriminate].
  intros H. injection H as <-. split; [reflexivity|].
  apply existsb_exists in X. destruct X as (k & I & E).
  apply eqb_string_true in E. now subst k.
Qed.

Lemma kingdom_step (P : value -> Prop) e st :
  (is_select_kingdom e = true -> forall k, In k kingdoms_options ->
                                           P (VString k)) ->
  P (kingdom (values st)) -> requests_kingdom P st ->
  let st' := exec (handle userId supabase e) st in
  P (kingdom (values st')) /\ requests_kingdom P st'.
Proof.
  intros S K R. destruct e as [[ |b| |b| |v| ]|k s|n];
    try (split; assumption).
  - unfold exec, handle, SpeciesCard.handle, onValueChange, parse.
    destruct (kingdoms v) as [k|i] eqn:V; [|split; assumption].
    destruct (kingdoms_valid_option _ V) as [_ I].
    split; [|exact R]. simpl. apply S; [reflexivity | exact I].
  - destruct (submit_step st) as (Q & V & _). cbv zeta.
    rewrite V. split; [exact K|].
    unfold requests_kingdom. rewrite Q. constructor; [|exact R].
    constructor; [exact K | constructor].
  - split; [|exact R]. simpl. rewrite with_text_kingdom. exact K.
Qed.

(** X7: the card's form starts without a kingdom, and the kingdom field only
    ever holds nothing or one of the six options: so does the kingdom of
    every row of every request the card sends. *)
Theorem card_kingdom_invariant (es : list event) :
  let st' := run userId supabase es SpeciesCard.init in
  kingdom_field_ok (kingdom (values st'))
  /\ requests_kingdom kingdom_field_ok st'.
Proof.
  assert (G : forall es st,
             kingdom_field_ok (kingdom (values st)) ->
             requests_kingdom kingdom_field_ok st ->
             kingdom_field_ok (kingdom (values (run userId supabase es st)))
             /\ requests_kingdom kingdom_field_ok
                  (run userId supabase es st)).
  { clear es. induction es as [|e es IH]; intros st K R; simpl.
    - split; assumption.
    - destruct (@kingdom_step kingdom_field_ok e st) as [K' R']; trivial.
      + intros _ k I. right. exists k. split; [reflexivity | exact I].
      + apply IH; assumption. }
  apply G.
  - left. reflexivity.
  - constructor.
Qed.

(** X8: [defaultValues] is not handed to the form: as long as the user picks
    no kingdom, every request the card sends carries no kingdom at all,
    not the declared default. *)
Theorem card_kingdom_undefined_unless_selected (es : list event) :
  forallb (fun e => negb (is_select_kingdom e)) es = true ->
  requests_kingdom (fun v => v = VUndefined)
    (run userId supabase es SpeciesCard.init).
Proof.
  assert (G : forall es st,
             forallb (fun e => negb (is_select_kingdom e)) es = true ->
             kingdom (values st) = VUndefined ->
             requests_kingdom (fun v => v = VUndefined) st ->
             requests_kingdom (fun v => v = VUndefined)
               (run userId supabase es st)).
  { clear es. induction es as [|e es IH]; intros st H K R; simpl; trivial.
    simpl in H. apply andb_true_iff in H. destruct H as [N H].
    apply negb_true_iff in N.
    destruct (@kingdom_step (fun v => v = VUndefined) e st) as [K' R'];
      trivial.
    - intros S. congruence.
    - apply IH; assumption. }
  intros H. apply G; [exact H | reflexivity | constructor].
Qed.

End Session.

End CardSessionFacts.

(** ** The edit dialog and the record it starts from *)

Module EditFacts.
Import Js Zod Schema Runtime TrimFacts TrimMore SchemaFacts HandlerFacts
  SchemaSpec.
Local Open Scope list_scope.
Local Open Scope string_scope.

(** [undefined] read as null, any other value as it is. *)
Definition undefined_to_null (v : value) : value :=
  match v with
  | VUndefined => VNull
  | _ => v
  end.

(** A record every column of which the schema would accept as typed in:
    trimmed non-empty name, one of the six kingdoms, common name and
    description null or trimmed and non-empty, a population that is an
    integer from one up, an image that is a trimmed URL. *)
Definition storable (URL_ok : jsstring -> bool) (species : Species) : Prop :=
  (exists n, row_scientific_name species = VString n /\ n <> []
             /\ trimmed n)
  /\ (exists k, row_kingdom species = VString k /\ In k kingdoms_options)
  /\ (row_common_name species = VNull
      \/ exists t, row_common_name species = VString t /\ t <> []
                   /\ trimmed t)
  /\ (row_description species = VNull
      \/ exists t, row_description species = VString t /\ t <> []
                   /\ trimmed t)
  /\ (exists q, row_total_population species = VNumber (Finite q)
                /\ isInteger (Finite q) = true
                /\ le (Finite 1%Q) (Finite q) = true)
  /\ (exists u, row_image species = VString u /\ u <> [] /\ trimmed u
                /\ URL_ok u = true).

Lemma truthy_string t : t <> [] -> truthy (VString t) = true.
Proof.
  intros N. simpl. destruct (eqb_string t []) eqn:E; trivial.
  apply eqb_string_true in E. contradiction.
Qed.

Lemma truthy_count q :
  le (Finite 1%Q) (Finite q) = true -> truthy (VNumber (Finite q)) = true.
Proof.
  simpl. intros L. destruct (Qeq_bool q 0) eqn:E; trivial.
  apply Qeq_bool_iff in E. apply Qle_bool_iff in L.
  rewrite E in L. now compute in L.
Qed.

Lemma not_blank_trimmed t : t <> [] -> trimmed t -> blank t = false.
Proof.
  intros N T. destruct (blank t) eqn:B; trivial.
  apply trim_nil_iff in B. unfold trimmed in T. congruence.
Qed.

Section Dialog.

Variable URL_ok : jsstring -> bool.
Variable species : Species.
Variable supabase : UpdateRequest -> option jsstring.
Variable useEffect : M unit -> M unit.

(** X9: a record without a population (null, or zero) cannot be saved from
    the form as it opens: its population field starts as the empty
    string, the schema reports it as not a number, and the submit sends
    nothing. *)
Theorem edit_initial_form_needs_population :
  truthy (row_total_population species) = false ->
  let r := EditSpeciesDialog.submit URL_ok species supabase useEffect
             (EditSpeciesDialog.init species) in
  fst r = Returned tt
  /\ requests (snd r) = []
  /\ In {| path := k_total_population; code := invalid_type |}
        (errors (snd r)).
Proof.
  intros F r. subst r.
  assert (B : total_population_schema
                (total_population (EditSpeciesDialog.record_values species))
              = Invalid [invalid_type]).
  { simpl. unfold or_else. rewrite F. reflexivity. }
  pose proof (total_population_rejected URL_ok _ B) as R.
  change (EditSpeciesDialog.record_values species)
    with (values (EditSpeciesDialog.init species)) in R at 1.
  rewrite (@edit_submit_rejected URL_ok species supabase useEffect
             (EditSpeciesDialog.init species) _ R).
  split; [reflexivity|]. split; [reflexivity|].
  change (errors (snd (set_errors
                         (first_per_field
                            (all_issues URL_ok
                               (EditSpeciesDialog.record_values species)))
                         (EditSpeciesDialog.init species))))
    with (first_per_field
            (all_issues URL_ok (EditSpeciesDialog.record_values species))).
  unfold all_issues. rewrite B.
  change (issues_at k_total_population (@Invalid value [invalid_type]))
    with [{| path := k_total_population; code := invalid_type |}].
  rewrite !app_assoc, <- app_assoc.
  apply first_per_field_keeps.
  repeat (apply Forall_app; split);
    (eapply Forall_impl; [|apply issues_at_path]);
    intros j ->; discriminate.
Qed.

(** X10: opening the dialog on a storable record and submitting it untouched
    is accepted, and the row built from the accepted data holds the
    record's own columns again. *)
Theorem edit_unchanged_record_round_trip :
  storable URL_ok species ->
  exists data,
    speciesSchema URL_ok (EditSpeciesDialog.record_values species)
    = Success data
    /\ let r := EditSpeciesDialog.row data in
       get "common_name" r = row_common_name species
       /\ get "description" r = row_description species
       /\ get "kingdom" r = row_kingdom species
       /\ get "scientific_name" r = row_scientific_name species
       /\ get "total_population" r = row_total_population species
       /\ get "image" r = row_image species.
Proof.
  intros ((n & En & Nn & Tn) & (k & Ek & Ik) & Hc & Hd
          & (q & Eq & Iq & Lq) & (u & Eu & Nu & Tu & Uu)).
  assert (text : forall c,
            c = VNull \/ (exists t, c = VString t /\ t <> [] /\ trimmed t) ->
            text_ok (or_else c (VString [])) c
            /\ or_else c VNull = c).
  { intros c [->|(t & -> & Nt & Tt)].
    - split; [|reflexivity]. right. exists []. split; reflexivity.
    - unfold or_else. rewrite (truthy_string Nt). split; [|reflexivity].
      right. exists t. split; [reflexivity|].
      rewrite (not_blank_trimmed Nt Tt), Tt. reflexivity. }
  destruct (text _ Hc) as [Sc Rc]. destruct (text _ Hd) as [Sd Rd].
  exists {| common_name := row_common_name species;
            description := row_description species;
            kingdom := row_kingdom species;
            scientific_name := row_scientific_name species;
            total_population := row_total_population species;
            image := row_image species |}.
  split.
  - apply accepts_iff. simpl. repeat split.
    + exact Sc.
    + exact Sd.
    + exists k. rewrite Ek. repeat split. exact Ik.
    + exists n. rewrite En. unfold or_else. rewrite (truthy_string Nn).
      split; [reflexivity|]. split; [apply not_blank_trimmed; assumption|].
      now rewrite Tn.
    + rewrite Eq. unfold or_else. rewrite (truthy_count _ Lq). reflexivity.
    + right. exists q. rewrite Eq. unfold or_else.
      rewrite (truthy_count _ Lq). repeat split; assumption.
    + right. exists u. rewrite Eu. unfold or_else.
      rewrite (truthy_string Nu). repeat split; [exact Uu | now rewrite Tu].
  - simpl. rewrite Rc, Rd.
    rewrite En, Eq, Eu. unfold or_else.
    rewrite (truthy_string Nn), (truthy_count _ Lq), (truthy_string Nu).
    repeat split.
Qed.

(** X11: a submit of the edit dialog sends at most one request, and only one
    built from data the schema accepted: its row has a non-empty trimmed
    scientific name and one of the six kingdoms.  [useEffect] is any
    function that does not retract a request. *)
Theorem edit_requests_are_validated (st : State) :
  (forall s, requests
               (snd (useEffect
                       (form_reset (EditSpeciesDialog.record_values species))
                       s))
             = requests s) ->
  let st' :=
    exec (EditSpeciesDialog.submit URL_ok species supabase useEffect) st in
  requests st' = requests st
  \/ exists data,
       speciesSchema URL_ok (values st) = Success data
       /\ requests st' = EditSpeciesDialog.query species data :: requests st
       /\ (exists n, get "scientific_name" (EditSpeciesDialog.row data)
                     = VString n /\ n <> [] /\ trimmed n)
       /\ (exists k, get "kingdom" (EditSpeciesDialog.row data) = VString k
                     /\ In k kingdoms_options).
Proof.
  intros frame st'. subst st'. unfold exec.
  destruct (speciesSchema URL_ok (values st)) as [data|issues] eqn:S.
  - right. exists data. split; [reflexivity|].
    rewrite (edit_submit_accepted _ _ _ _ _ S).
    split.
    + exact (edit_onSubmit_requests species supabase useEffect data
               (snd (set_errors [] st)) frame).
    + destruct (@output_shape _ _ _ S)
        as ((n & En & Nn & Tn) & (k & Ek & Ik) & _).
      split.
      * exists n. simpl. rewrite En. unfold or_else.
        rewrite (truthy_string Nn). repeat split; assumption.
      * exists k. simpl. split; assumption.
  - left. rewrite (edit_submit_rejected _ _ _ _ _ S). reflexivity.
Qed.

End Dialog.

(** X12: for data the schema accepted the two components build the same row,
    key by key, except that where [species-card.tsx] sends undefined
    [edit-species-card.tsx] sends null.  [new URL] accepts no string of
    white space. *)
Theorem rows_agree_on_accepted_data
    (URL_ok : jsstring -> bool) (userId : value) (input data : FormData)
    (k : string) :
  (forall x, URL_ok x = true -> trim x <> []) ->
  speciesSchema URL_ok input = Success data ->
  In k form_keys ->
  get k (EditSpeciesDialog.row data)
  = undefined_to_null (get k (SpeciesCard.row userId data)).
Proof.
  intros not_blank S I.
  pose proof (@output_shape _ _ _ S)
    as ((n & En & Nn & _) & (g & Eg & _) & Hc & Hd & Hp & _).
  apply accepts_iff in S.
  destruct S as (_ & _ & _ & _ & _ & Hi).
  assert (text : forall c,
            c = VNull \/ c = VUndefined
            \/ (exists t, c = VString t /\ t <> [] /\ trimmed t) ->
            or_else c VNull = undefined_to_null c).
  { intros c [->|[->|(t & -> & Nt & _)]]; try reflexivity.
    unfold or_else. rewrite (truthy_string Nt). reflexivity. }
  simpl in I. decompose [or] I; try contradiction; subst k; simpl.
  - apply text, Hc.
  - apply text, Hd.
  - rewrite Eg. reflexivity.
  - rewrite En. unfold or_else. rewrite (truthy_string Nn). reflexivity.
  - destruct Hp as [->|(q & -> & _ & L)]; [reflexivity|].
    unfold or_else. rewrite (truthy_count _ L). reflexivity.
  - destruct Hi as [[_ ->]|(s & _ & U & ->)]; [reflexivity|].
    unfold or_else. rewrite (truthy_string (not_blank s U)). reflexivity.
Qed.

End EditFacts.

(** ** The properties above on concrete records and sessions *)

Module Walkthrough.
Import Js Zod Schema Runtime TrimFacts SchemaFacts HandlerFacts SchemaSpec
  CardView CardViewFacts CardSession CardSessionFacts EditFacts.
Local Open Scope string_scope.
Local Open Scope list_scope.

(** A record with every column filled in. *)
Definition fox_record : Species :=
  {| row_id := VNumber (Finite (11 # 1));
     row_author := VString (lit "user-1");
     row_scientific_name := VString (lit "Vulpes vulpes");
     row_common_name := VString (lit "Red fox");
     row_kingdom := VString (lit "Animalia");
     row_total_population := VNumber (Finite (7000000 # 1));
     row_image := VString (lit "https://example.com/fox.jpg");
     row_description := VString (lit "A small canid.") |}.

(** The wolf input with no image. *)
Definition wolf_without_image : FormData :=
  Scenario.with_image VNull Scenario.wolf_input.

(** The user types a name, submits twice and picks no kingdom. *)
Definition two_submits : list event :=
  [Ui SpeciesCard.ClickEdit;
   TypeText scientific_name_input (lit "Canis lupus");
   Ui SpeciesCard.SubmitForm;
   TypePopulation (Finite (12 # 1));
   Ui SpeciesCard.SubmitForm].

Lemma speciesSchema_output_invariant_witness :
  (exists n, scientific_name Scenario.wolf_data = VString n /\ n <> []
             /\ trimmed n)
  /\ (exists k, kingdom Scenario.wolf_data = VString k
                /\ In k kingdoms_options)
  /\ (common_name Scenario.wolf_data = VNull
      \/ common_name Scenario.wolf_data = VUndefined
      \/ exists t, common_name Scenario.wolf_data = VString t /\ t <> []
                   /\ trimmed t)
  /\ (description Scenario.wolf_data = VNull
      \/ description Scenario.wolf_data = VUndefined
      \/ exists t, description Scenario.wolf_data = VString t /\ t <> []
                   /\ trimmed t)
  /\ (total_population Scenario.wolf_data = VUndefined
      \/ exists q, total_population Scenario.wolf_data = VNumber (Finite q)
                   /\ isInteger (Finite q) = true
                   /\ le (Finite 1%Q) (Finite q) = true)
  /\ (image Scenario.wolf_data = VUndefined
      \/ exists u, image Scenario.wolf_data = VString u /\ trimmed u).
Proof.
  apply (@speciesSchema_output_invariant has_scheme Scenario.wolf_input
           Scenario.wolf_data).
  reflexivity.
Defined.

Lemma speciesSchema_rejects_own_output_witness :
  let data := Scenario.with_image VUndefined Scenario.wolf_data in
  speciesSchema has_scheme wolf_without_image = Success data
  /\ speciesSchema has_scheme data = Failure (all_issues has_scheme data)
  /\ all_issues has_scheme data <> [].
Proof.
  intros data. split; [reflexivity|].
  apply (@speciesSchema_rejects_own_output has_scheme wolf_without_image
           data).
  - reflexivity.
  - right. right. reflexivity.
Defined.

Lemma blurb_bounded_witness :
  exists t,
    blurb fox_record = Some t
    /\ List.length t <= 153
    /\ t <> []
    /\ t = lit "A small canid....".
Proof.
  destruct (blurb_bounded fox_record
              (or_intror (or_intror (ex_intro _ (lit "A small canid.")
                                       eq_refl))))
    as (t & E & L & Z & whole).
  exists t. split; [exact E|]. split; [exact L|]. split.
  - intros N. apply Z in N. discriminate N.
  - rewrite (whole (lit "A small canid.") eq_refl);
      [reflexivity | discriminate | simpl; lia].
Defined.

Lemma card_edit_dialog_stays_open_witness :
  SpeciesCard.edit_dialog
    (SpeciesCard.render
       (run Scenario.owner Scenario.accepts two_submits
          (Scenario.editing Scenario.wolf_input)))
  = true.
Proof.
  apply (@card_edit_dialog_stays_open Scenario.owner Scenario.accepts
           two_submits (Scenario.editing Scenario.wolf_input));
    reflexivity.
Defined.

Lemma card_kingdom_undefined_unless_selected_witness :
  requests_kingdom (fun v => v = VUndefined)
    (run Scenario.owner Scenario.accepts two_submits SpeciesCard.init).
Proof.
  apply (@card_kingdom_undefined_unless_selected Scenario.owner
           Scenario.accepts two_submits).
  reflexivity.
Defined.

Lemma edit_initial_form_needs_population_witness :
  let species :=
    {| row_id := VNumber (Finite (11 # 1));
       row_author := VString (lit "user-1");
       row_scientific_name := VString (lit "Vulpes vulpes");
       row_common_name := VString (lit "Red fox");
       row_kingdom := VString (lit "Animalia");
       row_total_population := VNull;
       row_image := VString (lit "https://example.com/fox.jpg");
       row_description := VNull |} in
  let r := EditSpeciesDialog.submit has_scheme species Scenario.accepts
             EditSpeciesDialog.useEffect_outside_render
             (EditSpeciesDialog.init species) in
  fst r = Returned tt
  /\ requests (snd r) = []
  /\ In {| path := k_total_population; code := invalid_type |}
        (errors (snd r)).
Proof.
  intros species.
  apply (@edit_initial_form_needs_population has_scheme species
           Scenario.accepts EditSpeciesDialog.useEffect_outside_render).
  reflexivity.
Defined.

Lemma fox_record_storable : storable has_scheme fox_record.
Proof.
  unfold storable, trimmed. simpl. repeat split.
  - eexists. repeat split. discriminate.
  - eexists. split; [reflexivity|]. simpl. tauto.
  - right. eexists. repeat split. discriminate.
  - right. eexists. repeat split. discriminate.
  - eexists. repeat split.
  - eexists. repeat split. discriminate.
Defined.

Lemma edit_unchanged_record_round_trip_witness :
  exists data,
    speciesSchema has_scheme (EditSpeciesDialog.record_values fox_record)
    = Success data
    /\ let r := EditSpeciesDialog.row data in
       get "common_name" r = row_common_name fox_record
       /\ get "description" r = row_description fox_record
       /\ get "kingdom" r = row_kingdom fox_record
       /\ get "scientific_name" r = row_scientific_name fox_record
       /\ get "total_population" r = row_total_population fox_record
       /\ get "image" r = row_image fox_record.
Proof.
  apply (@edit_unchanged_record_round_trip has_scheme fox_record).
  exact fox_record_storable.
Defined.

Lemma edit_requests_are_validated_witness :
  let st := Scenario.editing Scenario.wolf_input in
  let st' :=
    exec (EditSpeciesDialog.submit has_scheme Scenario.wolf_record
            Scenario.accepts EditSpeciesDialog.useEffect_outside_render) st in
  requests st' = requests st
  \/ exists data,
       speciesSchema has_scheme (values st) = Success data
       /\ requests st'
          = EditSpeciesDialog.query Scenario.wolf_record data :: requests st
       /\ (exists n, get "scientific_name" (EditSpeciesDialog.row data)
                     = VString n /\ n <> [] /\ trimmed n)
       /\ (exists k, get "kingdom" (EditSpeciesDialog.row data) = VString k
                     /\ In k kingdoms_options).
Proof.
  intros st.
  apply (@edit_requests_are_validated has_scheme Scenario.wolf_record
           Scenario.accepts EditSpeciesDialog.useEffect_outside_render st).
  intros s. reflexivity.
Defined.

Lemma rows_agree_on_accepted_data_witness :
  let data := Scenario.with_total_population VUndefined Scenario.wolf_data in
  get "total_population" (EditSpeciesDialog.row data)
  = undefined_to_null
      (get "total_population" (SpeciesCard.row Scenario.owner data)).
Proof.
  intros data.
  apply (@rows_agree_on_accepted_data has_scheme Scenario.owner
           (Scenario.with_total_population VUndefined Scenario.wolf_input)
           data "total_population").
  - exact has_scheme_not_blank.
  - reflexivity.
  - simpl. tauto.
Defined.

(** The session [two_submits] sends two requests and refreshes twice. *)
Example two_submits_two_requests :
  let st := run Scenario.owner Scenario.accepts two_submits SpeciesCard.init in
  List.length (requests st) = 2 /\ refreshes st = 2 /\ toasts st = [].
Proof. repeat split. Qed.

End Walkthrough.
